(** * Commercial vehicle offer configurator: pricing and offer submission

    A shallow embedding of [main.py] (catalog tables, [calculate_total],
    [create_offer]) and of the request models of [schemas.py], with the
    properties of the offer pipeline proved over it.

    Conventions.
    - Python [str] is [string], the text in its UTF-8 encoding: equality of
      strings is equality of their bytes, and a character is a lead byte with
      the continuation bytes that follow it. A [List[str]] is [list string]; the
      membership test [x in xs] is the decidable [x ∈ xs], and a generator
      expression with an [if] clause is a [filter] on such a test.
    - Catalog prices are Python [int]s, modelled by [Z]; [float(n)] is the
      conversion of an integer to a binary64 float.
    - A Python [dict] with string keys (a dumped model, a JSON object) is a
      [gmap string pyval].
    - The handler runs in a state and exception monad over a [world] that
      holds the storage of the persistence gateway and the trace of the calls
      the handler made to the pricing function and to the gateway. *)

From Stdlib Require Import ZArith Floats Uint63 Ascii.
From stdpp Require Import gmap strings list fin_maps pretty.

Set Warnings "-register-all".

Open Scope Z_scope.
Open Scope string_scope.
Open Scope list_scope.

(** A Python [float]: an IEEE 754 binary64 number. *)
Abbreviation pyfloat := PrimFloat.float.

(** ** Python values *)

(** The values that occur in request bodies and in dumped models. *)
Inductive pyval : Type :=
  | PNone
  | PBool (b : bool)
  | PInt (n : Z)
  | PFloat (f : pyfloat)
  | PStr (s : string)
  | PList (l : list pyval)
  | PDict (d : gmap string pyval).

(** [float(n)] for a Python [int] [n]. The conversion is the one of the
    hardware for [0 <= n < 2^63]; every integer the pricing function builds
    lies in that range (see [total_int_range]), and below [2^53] it is
    exact. *)
Definition float (n : Z) : pyfloat := PrimFloat.of_uint63 (Uint63.of_Z n).

(** ** Catalog ([main.py], lines 19-52) *)

(** A vehicle entry [{"id": .., "name": .., "base_price": ..}]. *)
Record vehicle := Vehicle {
  v_id : string;
  v_name : string;
  v_base_price : Z
}.

(** An entry [{"code": .., "name": .., "price": ..}] of the colour,
    upholstery, factory option and accessory tables. *)
Record item := Item {
  i_code : string;
  i_name : string;
  i_price : Z
}.

Definition VEHICLES : list vehicle := [
  Vehicle "van-s" "City Van S" 18990;
  Vehicle "van-m" "Transit M" 23990;
  Vehicle "truck-l" "Cargo Truck L" 44990
].

Definition COLORS : list item := [
  Item "WHI" "Arctic White" 0;
  Item "BLK" "Midnight Black" 450;
  Item "SLV" "Glacier Silver" 450;
  Item "RED" "Signal Red" 690
].

Definition UPHOLSTERIES : list item := [
  Item "FAB-G" "Fabric Grey" 0;
  Item "FAB-B" "Fabric Black" 120;
  Item "LEA-B" "Leather Black" 890
].

(* The name of CAM-360 is "360° Camera" in the source; the degree sign is
   written here as its two UTF-8 bytes. *)
Definition FACTORY_OPTIONS : list item := [
  Item "PKG-COMF" "Comfort Package" 990;
  Item "NAV-PRO" "Navigation Pro" 1290;
  Item "ACC-ADAPT" "Adaptive Cruise Control" 790;
  Item "CAM-360" ("360" +:+ String (Ascii.ascii_of_nat 194)
                    (String (Ascii.ascii_of_nat 176) " Camera")) 650
].

Definition ACCESSORIES : list item := [
  Item "MAT-RUB" "Rubber Floor Mats" 99;
  Item "RACK-ROOF" "Roof Rack" 299;
  Item "BOX-TOOL" "Tool Storage Box" 179
].

(** ** Request models ([schemas.py]) *)

Record Customer := mkCustomer {
  first_name : string;
  last_name : string;
  company : option string;
  email : string;
  phone : option string;
  street : option string;
  postal_code : option string;
  city : option string;
  notes : option string
}.

Record Configuration := mkConfiguration {
  vehicle_id : string;
  vehicle_name : string;
  color_code : string;
  color_name : string;
  upholstery_code : string;
  upholstery_name : string;
  factory_options : list string;
  accessories : list string;
  special_agreement : option string;
  customer : Customer;
  total_price : option pyfloat
}.

(** Attribute assignment [cfg.field = value] on the request model. *)
Definition set_vehicle_name (x : string) (c : Configuration) : Configuration :=
  mkConfiguration (vehicle_id c) x (color_code c) (color_name c)
    (upholstery_code c) (upholstery_name c) (factory_options c)
    (accessories c) (special_agreement c) (customer c) (total_price c).

Definition set_color_name (x : string) (c : Configuration) : Configuration :=
  mkConfiguration (vehicle_id c) (vehicle_name c) (color_code c) x
    (upholstery_code c) (upholstery_name c) (factory_options c)
    (accessories c) (special_agreement c) (customer c) (total_price c).

Definition set_upholstery_name (x : string) (c : Configuration) : Configuration :=
  mkConfiguration (vehicle_id c) (vehicle_name c) (color_code c) (color_name c)
    (upholstery_code c) x (factory_options c)
    (accessories c) (special_agreement c) (customer c) (total_price c).

Definition set_total_price (x : option pyfloat) (c : Configuration) : Configuration :=
  mkConfiguration (vehicle_id c) (vehicle_name c) (color_code c) (color_name c)
    (upholstery_code c) (upholstery_name c) (factory_options c)
    (accessories c) (special_agreement c) (customer c) x.

Definition set_factory_options (x : list string) (c : Configuration) : Configuration :=
  mkConfiguration (vehicle_id c) (vehicle_name c) (color_code c) (color_name c)
    (upholstery_code c) (upholstery_name c) x
    (accessories c) (special_agreement c) (customer c) (total_price c).

Definition set_accessories (x : list string) (c : Configuration) : Configuration :=
  mkConfiguration (vehicle_id c) (vehicle_name c) (color_code c) (color_name c)
    (upholstery_code c) (upholstery_name c) (factory_options c)
    x (special_agreement c) (customer c) (total_price c).

(** ** Generators, [next] and [sum] *)

(** [next(g, default)]: the first element the generator yields, or the
    default when it yields none. A generator expression
    [(f(x) for x in xs if p(x))] is [f <$> filter p xs]. *)
Definition next {A} (g : list A) (default : A) : A :=
  match g with
  | [] => default
  | x :: _ => x
  end.

(** [sum(g)] over integers: starts from 0 and adds from left to right. *)
Definition sum (g : list Z) : Z := foldl Z.add 0 g.

(** ** Pricing ([main.py], lines 56-62) *)

Definition base_price (cfg : Configuration) : Z :=
  next (v_base_price <$> filter (λ v, v_id v = vehicle_id cfg) VEHICLES) 0.

Definition color_price (cfg : Configuration) : Z :=
  next (i_price <$> filter (λ c, i_code c = color_code cfg) COLORS) 0.

Definition up_price (cfg : Configuration) : Z :=
  next (i_price <$> filter (λ u, i_code u = upholstery_code cfg) UPHOLSTERIES) 0.

Definition opt_sum (cfg : Configuration) : Z :=
  sum (i_price <$> filter (λ o, i_code o ∈ factory_options cfg) FACTORY_OPTIONS).

Definition acc_sum (cfg : Configuration) : Z :=
  sum (i_price <$> filter (λ a, i_code a ∈ accessories cfg) ACCESSORIES).

(** The integer [calculate_total] hands to [float]. *)
Definition total_int (cfg : Configuration) : Z :=
  base_price cfg + color_price cfg + up_price cfg + opt_sum cfg + acc_sum cfg.

Definition calculate_total (cfg : Configuration) : pyfloat :=
  float (total_int cfg).

(** ** Dumping a model ([cfg.model_dump()]) *)

(** An [Optional[str]] attribute dumps to the string or to [None]. *)
Definition dump_optional_str (o : option string) : pyval :=
  match o with
  | Some s => PStr s
  | None => PNone
  end.

Definition dump_optional_float (o : option pyfloat) : pyval :=
  match o with
  | Some f => PFloat f
  | None => PNone
  end.

Definition dump_customer (c : Customer) : pyval :=
  PDict (list_to_map [
    ("first_name", PStr (first_name c));
    ("last_name", PStr (last_name c));
    ("company", dump_optional_str (company c));
    ("email", PStr (email c));
    ("phone", dump_optional_str (phone c));
    ("street", dump_optional_str (street c));
    ("postal_code", dump_optional_str (postal_code c));
    ("city", dump_optional_str (city c));
    ("notes", dump_optional_str (notes c))
  ]).

(** The field names of [Configuration], in declaration order. *)
Definition Configuration_fields : list string := [
  "vehicle_id"; "vehicle_name"; "color_code"; "color_name";
  "upholstery_code"; "upholstery_name"; "factory_options"; "accessories";
  "special_agreement"; "customer"; "total_price"
].

(** [model_dump] turns the model into a dict with one key per declared
    field, nested models dumped in turn. *)
Definition model_dump_dict (cfg : Configuration) : gmap string pyval :=
  list_to_map [
    ("vehicle_id", PStr (vehicle_id cfg));
    ("vehicle_name", PStr (vehicle_name cfg));
    ("color_code", PStr (color_code cfg));
    ("color_name", PStr (color_name cfg));
    ("upholstery_code", PStr (upholstery_code cfg));
    ("upholstery_name", PStr (upholstery_name cfg));
    ("factory_options", PList (PStr <$> factory_options cfg));
    ("accessories", PList (PStr <$> accessories cfg));
    ("special_agreement", dump_optional_str (special_agreement cfg));
    ("customer", dump_customer (customer cfg));
    ("total_price", dump_optional_float (total_price cfg))
  ].

Definition model_dump (cfg : Configuration) : pyval :=
  PDict (model_dump_dict cfg).

(** ** Exceptions, the world and the handler monad *)

(** An exception in flight, of class [Exception]. [HTTPException] is the
    one the handler raises itself; [Exception] stands for any other instance
    of [Exception], of which the handler only ever observes [str(e)]. What
    does not derive from [Exception] ([KeyboardInterrupt], [SystemExit]) is
    outside the model: a clause [except Exception] does not catch it. *)
Inductive exn : Type :=
  | HTTPException (status_code : Z) (detail : string)
  | Exception (msg : string).

(** [str(e)]. For an [HTTPException] this is the text Starlette gives it,
    the status code and the detail separated by a colon. *)
Definition str (e : exn) : string :=
  match e with
  | HTTPException status_code detail => pretty status_code +:+ ": " +:+ detail
  | Exception msg => msg
  end.

(** What the handler does besides computing: it calls [calculate_total] and
    it calls [create_document]. The trace keeps these calls in order. *)
Inductive event : Type :=
  | EvCalculateTotal (cfg : Configuration)
  | EvCreateDocument (collection_name : string) (data : pyval).

Record world (DB : Type) := mkWorld {
  store : DB;
  trace : list event
}.
Arguments mkWorld {DB} _ _.
Arguments store {DB} _.
Arguments trace {DB} _.

(** A computation either returns a value or raises, and leaves a world. *)
Definition M (DB A : Type) : Type := world DB → (exn + A) * world DB.

Definition ret {DB A} (a : A) : M DB A := λ w, (inr a, w).

Definition raise {DB A} (e : exn) : M DB A := λ w, (inl e, w).

Definition bind {DB A B} (m : M DB A) (k : A → M DB B) : M DB B :=
  λ w, match m w with
       | (inl e, w') => (inl e, w')
       | (inr a, w') => k a w'
       end.

(** [try: m  except Exception as e: h(e)]. Every exception of the model is
    an instance of [Exception], so the clause catches each of them. *)
Definition try_except {DB A} (m : M DB A) (h : exn → M DB A) : M DB A :=
  λ w, match m w with
       | (inl e, w') => h e w'
       | (inr a, w') => (inr a, w')
       end.

Definition log {DB} (ev : event) : M DB unit :=
  λ w, (inr tt, mkWorld (store w) (trace w ++ [ev])).

Notation "x <- m ;; k" := (bind m (λ x, k))
  (at level 100, m at next level, right associativity).

(** ** Offer submission ([main.py], lines 88-119) *)

Record OfferRequest := mkOfferRequest {
  configuration : Configuration
}.

Module OfferResponse.
Record t := mk {
  offer_id : string;
  total_price : pyfloat
}.
End OfferResponse.

Section Service.

(** The [database] module is a collaborator of the service: its storage
    is a state of some type [DB], and [create_document(name, data)] either
    returns the identifier of the new document or raises, and leaves a
    storage state. *)
Context {DB : Type}.
Variable database_create_document :
  string → pyval → DB → (exn + string) * DB.

(** The handler's call [create_document(name, data)]. *)
Definition create_document (collection_name : string) (data : pyval)
  : M DB string :=
  _ <- log (EvCreateDocument collection_name data) ;;
  λ w, let '(r, db') := database_create_document collection_name data (store w) in
       (r, mkWorld db' (trace w)).

(** The handler's call [calculate_total(cfg)]. *)
Definition call_calculate_total (cfg : Configuration) : M DB pyfloat :=
  _ <- log (EvCalculateTotal cfg) ;;
  ret (calculate_total cfg).

(** [create_offer]. The three catalog lookups yield the matching entry or
    [None]; a catalog entry is a non-empty dict, hence truthy, so
    [not vehicle] holds exactly when the lookup gave [None]. The request
    model is mutated in place: each assignment is a record update of the
    one [cfg] that later statements read. *)
Definition create_offer (payload : OfferRequest) : M DB OfferResponse.t :=
  let cfg := configuration payload in
  let vehicle := next (Some <$> filter (λ v, v_id v = vehicle_id cfg) VEHICLES) None in
  let color := next (Some <$> filter (λ c, i_code c = color_code cfg) COLORS) None in
  let upholstery :=
    next (Some <$> filter (λ u, i_code u = upholstery_code cfg) UPHOLSTERIES) None in
  match vehicle, color, upholstery with
  | Some vehicle, Some color, Some upholstery =>
      let cfg := set_vehicle_name (v_name vehicle) cfg in
      let cfg := set_color_name (i_name color) cfg in
      let cfg := set_upholstery_name (i_name upholstery) cfg in
      total <- call_calculate_total cfg ;;
      let cfg := set_total_price (Some total) cfg in
      let data := model_dump cfg in
      offer_id <- try_except (create_document "configuration" data)
                   (λ e, raise (HTTPException 500 ("Database error: " +:+ str e))) ;;
      ret (OfferResponse.mk offer_id total)
  | _, _, _ => raise (HTTPException 400 "Invalid catalog selection")
  end.

End Service.

(** ** Request validation ([schemas.py] and the route declaration) *)

(** What the client receives: the answer of the handler, the status and
    detail of an [HTTPException], the refusal of a body that does not
    validate, or the plain 500 of any other exception. The refusal is the
    validation error with status 422; how the framework renders that error
    is not modelled (it answers 500 instead when the refused input holds a
    float that JSON cannot carry). *)
Inductive http_response : Type :=
  | Response200 (body : OfferResponse.t)
  | ResponseHTTPException (status_code : Z) (detail : string)
  | Response422
  | Response500.

(** The route [POST /api/offers] declares its body as an [OfferRequest]:
    the framework validates the decoded JSON body against the request models
    and runs the handler only on a model it could build. The validators
    below follow the field declarations of [schemas.py] one by one: a field
    declared with [Field(...)] or without a default is required, a field with
    a default may be absent, a [str] field takes a string only. Two leaf
    validators belong to libraries and are left open: the syntax check and
    normalisation of [EmailStr] and the coercion of a value to a [float]. *)
Section Validation.

Variable validate_email : string → option string.
Variable coerce_float : pyval → option pyfloat.

Definition validate_str (x : pyval) : option string :=
  match x with
  | PStr s => Some s
  | _ => None
  end.

Definition validate_optional {A} (v : pyval → option A) (x : pyval)
  : option (option A) :=
  match x with
  | PNone => Some None
  | _ => Some <$> v x
  end.

Definition validate_list {A} (v : pyval → option A) (x : pyval)
  : option (list A) :=
  match x with
  | PList l => mapM v l
  | _ => None
  end.

Definition validate_EmailStr (x : pyval) : option string :=
  validate_str x ≫= validate_email.

(** [Field(..., ge=0)] on a float. *)
Definition validate_float_ge0 (x : pyval) : option pyfloat :=
  f ← coerce_float x;
  if (0 <=? f)%float then Some f else None.

(** A required field: the key must be there and its value must validate. *)
Definition required {A} (v : pyval → option A) (d : gmap string pyval)
    (k : string) : option A :=
  d !! k ≫= v.

(** A field with a default: an absent key gives the default. *)
Definition with_default {A} (v : pyval → option A) (default : A)
    (d : gmap string pyval) (k : string) : option A :=
  match d !! k with
  | None => Some default
  | Some x => v x
  end.

Definition validate_Customer (x : pyval) : option Customer :=
  match x with
  | PDict d =>
      first_name ← required validate_str d "first_name";
      last_name ← required validate_str d "last_name";
      company ← with_default (validate_optional validate_str) None d "company";
      email ← required validate_EmailStr d "email";
      phone ← with_default (validate_optional validate_str) None d "phone";
      street ← with_default (validate_optional validate_str) None d "street";
      postal_code ← with_default (validate_optional validate_str) None d "postal_code";
      city ← with_default (validate_optional validate_str) None d "city";
      notes ← with_default (validate_optional validate_str) None d "notes";
      Some (mkCustomer first_name last_name company email phone street
              postal_code city notes)
  | _ => None
  end.

Definition validate_Configuration (x : pyval) : option Configuration :=
  match x with
  | PDict d =>
      vehicle_id ← required validate_str d "vehicle_id";
      vehicle_name ← required validate_str d "vehicle_name";
      color_code ← required validate_str d "color_code";
      color_name ← required validate_str d "color_name";
      upholstery_code ← required validate_str d "upholstery_code";
      upholstery_name ← required validate_str d "upholstery_name";
      factory_options ← with_default (validate_list validate_str) [] d "factory_options";
      accessories ← with_default (validate_list validate_str) [] d "accessories";
      special_agreement ←
        with_default (validate_optional validate_str) None d "special_agreement";
      customer ← required validate_Customer d "customer";
      total_price ←
        with_default (validate_optional validate_float_ge0) None d "total_price";
      Some (mkConfiguration vehicle_id vehicle_name color_code color_name
              upholstery_code upholstery_name factory_options accessories
              special_agreement customer total_price)
  | _ => None
  end.

Definition validate_OfferRequest (x : pyval) : option OfferRequest :=
  match x with
  | PDict d =>
      configuration ← required validate_Configuration d "configuration";
      Some (mkOfferRequest configuration)
  | _ => None
  end.

(** What the interface demands of a body, besides the codes: the three
    names as strings, and a customer with first and last name as strings
    and an email the email validator accepts. *)
Definition is_str (o : option pyval) : bool :=
  match o with
  | Some (PStr _) => true
  | _ => false
  end.

Definition is_valid_email (o : option pyval) : bool :=
  match o with
  | Some (PStr e) => bool_decide (is_Some (validate_email e))
  | _ => false
  end.

Definition customer_present (o : option pyval) : bool :=
  match o with
  | Some (PDict c) =>
      is_str (c !! "first_name") && is_str (c !! "last_name")
      && is_valid_email (c !! "email")
  | _ => false
  end.

Definition mandatory_fields_present (body : pyval) : bool :=
  match body with
  | PDict b =>
      match b !! "configuration" with
      | Some (PDict d) =>
          is_str (d !! "vehicle_name") && is_str (d !! "color_name")
          && is_str (d !! "upholstery_name") && customer_present (d !! "customer")
      | _ => false
      end
  | _ => false
  end.

Context {DB : Type}.
Variable database_create_document :
  string → pyval → DB → (exn + string) * DB.

(** The route: validate the body, run the handler on the model, turn its
    outcome into a response. An [HTTPException] becomes a response with its
    status code and detail, a body that does not validate a 422, any other
    exception a plain 500. *)
Definition post_api_offers (body : pyval) (w : world DB)
  : http_response * world DB :=
  match validate_OfferRequest body with
  | None => (Response422, w)
  | Some payload =>
      match create_offer database_create_document payload w with
      | (inr r, w') => (Response200 r, w')
      | (inl (HTTPException status_code detail), w') =>
          (ResponseHTTPException status_code detail, w')
      | (inl (Exception _), w') => (Response500, w')
      end
  end.

End Validation.

(** ** Two stand-ins for the storage, and leaf validators *)

(** An in-memory storage: the list of the documents written, each with its
    collection; the identifier of a document is its rank. *)
Definition memory_create_document (name : string) (data : pyval)
    (db : list (string * pyval)) : (exn + string) * list (string * pyval) :=
  (inr ("offer-" +:+ pretty (List.length db)), db ++ [(name, data)]).

(** A storage that cannot be reached: every write raises. *)
Definition unreachable_create_document (name : string) (data : pyval)
    (db : unit) : (exn + string) * unit :=
  (inl (Exception "connection refused"), db).

(** A crude email check, enough to run examples: the address must contain
    an at sign; nothing is normalised. *)
Fixpoint has_at_sign (s : string) : bool :=
  match s with
  | EmptyString => false
  | String c s' => if Ascii.eqb c "@"%char then true else has_at_sign s'
  end.

Definition simple_validate_email (s : string) : option string :=
  if has_at_sign s then Some s else None.

(** A float coercion that takes floats and integers only. *)
Definition simple_coerce_float (x : pyval) : option pyfloat :=
  match x with
  | PFloat f => Some f
  | PInt n => Some (float n)
  | _ => None
  end.

(** ** The pricing rule as the specification words it *)

Module Spec.

(** The price of the entry whose code is [code], 0 when no entry matches. *)
Fixpoint price_of (catalog : list item) (code : string) : Z :=
  match catalog with
  | [] => 0
  | e :: rest =>
      if decide (i_code e = code) then i_price e else price_of rest code
  end.

(** The base price of the vehicle [id], 0 when no vehicle matches. *)
Fixpoint base_of (catalog : list vehicle) (id : string) : Z :=
  match catalog with
  | [] => 0
  | v :: rest =>
      if decide (v_id v = id) then v_base_price v else base_of rest id
  end.

(** The sum of the prices of the catalog entries whose code appears among
    [codes]; entries that are not referenced add nothing. *)
Fixpoint selected_sum (catalog : list item) (codes : list string) : Z :=
  match catalog with
  | [] => 0
  | e :: rest =>
      (if decide (i_code e ∈ codes) then i_price e else 0)
      + selected_sum rest codes
  end.

(** The same sum read from the submission's side: every distinct
    submitted code adds the price of its catalog entry, 0 when it has
    none. *)
Definition submitted_sum (catalog : list item) (codes : list string) : Z :=
  foldr (λ code acc, price_of catalog code + acc) 0 (remove_dups codes).

Definition total (cfg : Configuration) : Z :=
  base_of VEHICLES (vehicle_id cfg)
  + price_of COLORS (color_code cfg)
  + price_of UPHOLSTERIES (upholstery_code cfg)
  + selected_sum FACTORY_OPTIONS (factory_options cfg)
  + selected_sum ACCESSORIES (accessories cfg).

(** The first catalog entry with a given code, if there is one. *)
Fixpoint lookup_item (catalog : list item) (code : string) : option item :=
  match catalog with
  | [] => None
  | e :: rest => if decide (i_code e = code) then Some e else lookup_item rest code
  end.

Fixpoint lookup_vehicle (catalog : list vehicle) (id : string) : option vehicle :=
  match catalog with
  | [] => None
  | v :: rest => if decide (v_id v = id) then Some v else lookup_vehicle rest id
  end.

(** The configuration with the three names overwritten from the catalog,
    the client's [total_price] still in place; [None] when a selection
    does not resolve. *)
Definition with_names (cfg : Configuration) : option Configuration :=
  v ← lookup_vehicle VEHICLES (vehicle_id cfg);
  c ← lookup_item COLORS (color_code cfg);
  u ← lookup_item UPHOLSTERIES (upholstery_code cfg);
  Some (set_upholstery_name (i_name u)
          (set_color_name (i_name c) (set_vehicle_name (v_name v) cfg))).

(** The fully resolved configuration: names from the catalog, total from
    the pricing function. *)
Definition resolve (cfg : Configuration) : option Configuration :=
  cfg' ← with_names cfg;
  Some (set_total_price (Some (calculate_total cfg')) cfg').

(** The three single-valued selections name catalog entries. *)
Definition valid_selection (cfg : Configuration) : Prop :=
  vehicle_id cfg ∈ v_id <$> VEHICLES
  ∧ color_code cfg ∈ i_code <$> COLORS
  ∧ upholstery_code cfg ∈ i_code <$> UPHOLSTERIES.

End Spec.

(** The documents the trace shows were handed to the storage. *)
Definition documents_written (tr : list event) : list (string * pyval) :=
  omap (λ ev, match ev with
              | EvCreateDocument name data => Some (name, data)
              | EvCalculateTotal _ => None
              end) tr.

(** The error of a rejected selection. *)
Definition InvalidSelection : exn :=
  HTTPException 400 "Invalid catalog selection".

(** The two multi-valued selections of a configuration. *)
Inductive addon : Type := FactoryOption | Accessory.

Definition addon_catalog (k : addon) : list item :=
  match k with
  | FactoryOption => FACTORY_OPTIONS
  | Accessory => ACCESSORIES
  end.

Definition addon_codes (k : addon) (cfg : Configuration) : list string :=
  match k with
  | FactoryOption => factory_options cfg
  | Accessory => accessories cfg
  end.

Definition set_addon_codes (k : addon) (codes : list string)
    (cfg : Configuration) : Configuration :=
  match k with
  | FactoryOption => set_factory_options codes cfg
  | Accessory => set_accessories codes cfg
  end.

(** Two submissions that differ at most in the fields the server derives:
    the three names and the total. *)
Definition same_client_choices (cfg1 cfg2 : Configuration) : Prop :=
  vehicle_id cfg1 = vehicle_id cfg2
  ∧ color_code cfg1 = color_code cfg2
  ∧ upholstery_code cfg1 = upholstery_code cfg2
  ∧ factory_options cfg1 = factory_options cfg2
  ∧ accessories cfg1 = accessories cfg2
  ∧ special_agreement cfg1 = special_agreement cfg2
  ∧ customer cfg1 = customer cfg2.

(** The fields of a configuration that the server derives. *)
Definition derived_fields : list string :=
  ["vehicle_name"; "color_name"; "upholstery_name"; "total_price"].

(** ** Sample requests *)

Definition sample_customer : Customer :=
  mkCustomer "Ada" "Lovelace" (Some "Analytical Engines Ltd")
    "ada@example.org" None None None (Some "London") None.

(** The configuration of the specification's worked example, with
    placeholder names and no client total. *)
Definition sample_cfg : Configuration :=
  mkConfiguration "van-s" "" "BLK" "" "FAB-G" ""
    ["NAV-PRO"; "UNKNOWN-X"] [] None sample_customer None.

(** The same selection with forged names and a forged total. *)
Definition forged_cfg : Configuration :=
  mkConfiguration "van-s" "FAKE" "BLK" "FAKE" "FAB-G" "FAKE"
    ["NAV-PRO"; "UNKNOWN-X"] [] None sample_customer (Some 999999%float).

(** A selection with repeated and reordered add-ons. *)
Definition repeated_cfg : Configuration :=
  mkConfiguration "truck-l" "" "RED" "" "LEA-B" ""
    ["CAM-360"; "NAV-PRO"; "CAM-360"] ["BOX-TOOL"; "MAT-RUB"; "BOX-TOOL"]
    (Some "fleet discount") sample_customer None.

Definition reordered_cfg : Configuration :=
  mkConfiguration "truck-l" "Cargo" "RED" "Red" "LEA-B" "Leather"
    ["NAV-PRO"; "CAM-360"; "CAM-360"] ["BOX-TOOL"; "BOX-TOOL"; "MAT-RUB"]
    None sample_customer (Some 1%float).

(** A world with an empty in-memory storage and an empty trace. *)
Definition empty_world : world (list (string * pyval)) := mkWorld [] [].

(** A world whose storage cannot be reached. *)
Definition offline_world : world unit := mkWorld tt [].

(** A request body that carries everything but [vehicle_name]. *)
Definition body_without_vehicle_name : pyval :=
  PDict {[ "configuration" :=
             PDict (delete "vehicle_name" (model_dump_dict sample_cfg)) ]}.

(** A selection of a vehicle the catalog does not have. *)
Definition nonexistent_cfg : Configuration :=
  mkConfiguration "nonexistent" "" "BLK" "" "FAB-G" "" [] [] None
    sample_customer None.

(** ** Catalog endpoints ([main.py], lines 66-84) *)

(** Each endpoint returns its module-level table as it is. *)
Definition get_vehicles : list vehicle := VEHICLES.
Definition get_colors : list item := COLORS.
Definition get_upholsteries : list item := UPHOLSTERIES.
Definition get_factory_options : list item := FACTORY_OPTIONS.
Definition get_accessories : list item := ACCESSORIES.

(** ** Reading a float back as an integer *)

(** The integer a float denotes when it denotes one: [int(f)] guarded by
    [f.is_integer()]. Infinities, NaN and floats with a fractional part
    give [None]. *)
Definition exact_int (f : pyfloat) : option Z :=
  match Prim2SF f with
  | S754_zero _ => Some 0
  | S754_finite sign m e =>
      let magnitude :=
        if (0 <=? e)%Z then Some (Z.pos m * 2 ^ e)
        else if (Z.pos m mod 2 ^ (- e) =? 0)%Z then Some (Z.pos m / 2 ^ (- e))
        else None in
      (λ n, if sign then - n else n) <$> magnitude
  | S754_infinity _ | S754_nan => None
  end.

(** The values a single-valued lookup can take over a table of prices, and
    the values a membership sum can take. *)
Definition lookup_values (prices : list Z) : list Z := 0 :: prices.

Fixpoint subset_sums (prices : list Z) : list Z :=
  match prices with
  | [] => [0]
  | p :: rest => ((λ n, p + n) <$> subset_sums rest) ++ subset_sums rest
  end.

(** Every integer the pricing function can hand to [float]. *)
Definition possible_totals : list Z :=
  b ← lookup_values (v_base_price <$> VEHICLES);
  c ← lookup_values (i_price <$> COLORS);
  u ← lookup_values (i_price <$> UPHOLSTERIES);
  o ← subset_sums (i_price <$> FACTORY_OPTIONS);
  a ← subset_sums (i_price <$> ACCESSORIES);
  [b + c + u + o + a].

(** ** The diagnostic endpoint ([main.py], lines 121-152) *)

(** Reading an attribute of an object: it is missing, it has a value, or
    reading it raises something other than [AttributeError]. *)
Inductive attribute : Type :=
  | NoAttribute
  | Attribute (v : pyval)
  | AttributeRaises (e : exn).

(** The handle [db] of the [database] module as the endpoint uses it: its
    attribute [name] and the outcome of [list_collection_names()]. *)
Record database := mkDatabase {
  db_name : attribute;
  list_collection_names : exn + list pyval
}.

(** Truthiness of [os.getenv(key)]: an unset variable gives [None], a set
    one its value, and the empty string is falsy. *)
Definition getenv_truthy (value : option string) : bool :=
  match value with
  | Some EmptyString => false
  | Some (String _ _) => true
  | None => false
  end.

(** A byte of the form 10xxxxxx continues the character begun before it. *)
Definition is_continuation_byte (c : ascii) : bool :=
  let n := N_of_ascii c in (128 <=? n)%N && (n <? 192)%N.

(** [s[:n]]: the first [n] characters of [s], all of [s] when it is
    shorter. A character is copied whole: its lead byte counts, the
    continuation bytes after it come along. *)
Fixpoint str_prefix (n : nat) (s : string) : string :=
  match s with
  | EmptyString => EmptyString
  | String c rest =>
      if is_continuation_byte c then String c (str_prefix n rest)
      else match n with
           | O => EmptyString
           | S n' => String c (str_prefix n' rest)
           end
  end.

(** The dictionary the endpoint starts from. *)
Definition initial_response : gmap string pyval :=
  list_to_map [
    ("backend", PStr "✅ Running");
    ("database", PStr "❌ Not Available");
    ("database_url", PNone);
    ("database_name", PNone);
    ("connection_status", PStr "Not Connected");
    ("collections", PList [])
  ].

(** The body of the outer [try]. The assignments made before an exception
    stay in the dictionary, so the block returns the dictionary it reached
    together with the exception that left it, if any. [hasattr] lets an
    exception other than [AttributeError] through; the inner [try] catches
    what [list_collection_names] raises. *)
Definition test_database_try (db : option database)
    (response : gmap string pyval) : option exn * gmap string pyval :=
  match db with
  | Some db =>
      let response := <["database" := PStr "✅ Available"]> response in
      let response := <["database_url" := PStr "✅ Configured"]> response in
      match db_name db with
      | AttributeRaises e => (Some e, response)
      | has_name =>
          let name :=
            match has_name with
            | Attribute v => v
            | _ => PStr "✅ Connected"
            end in
          let response := <["database_name" := name]> response in
          let response := <["connection_status" := PStr "Connected"]> response in
          match list_collection_names db with
          | inr collections =>
              let response :=
                <["collections" := PList (take 10 collections)]> response in
              let response :=
                <["database" := PStr "✅ Connected & Working"]> response in
              (None, response)
          | inl e =>
              (None,
               <["database" :=
                   PStr ("⚠️  Connected but Error: " +:+ str_prefix 50 (str e))]>
                 response)
          end
      end
  | None =>
      (None,
       <["database" := PStr "⚠️  Available but not initialized"]> response)
  end.

(** [test_database], given the handle [db] and the environment. *)
Definition test_database (db : option database)
    (getenv : string → option string) : gmap string pyval :=
  let response := initial_response in
  let '(raised, response) := test_database_try db response in
  let response :=
    match raised with
    | Some e =>
        <["database" := PStr ("❌ Error: " +:+ str_prefix 50 (str e))]> response
    | None => response
    end in
  let response :=
    <["database_url" :=
        PStr (if getenv_truthy (getenv "DATABASE_URL")
              then "✅ Set" else "❌ Not Set")]> response in
  let response :=
    <["database_name" :=
        PStr (if getenv_truthy (getenv "DATABASE_NAME")
              then "✅ Set" else "❌ Not Set")]> response in
  response.

(** A handle that works and lists twelve collections, and one whose listing
    fails. *)
Definition healthy_db : database :=
  mkDatabase (Attribute (PStr "offers"))
    (inr (PStr <$> ["c01"; "c02"; "c03"; "c04"; "c05"; "c06";
                    "c07"; "c08"; "c09"; "c10"; "c11"; "c12"])).

Definition failing_db : database :=
  mkDatabase NoAttribute (inl (Exception "server selection timeout")).

(** An environment with the database name set and the URL set to the empty
    string. *)
Definition sample_getenv (key : string) : option string :=
  if decide (key = "DATABASE_NAME") then Some "offers"
  else if decide (key = "DATABASE_URL") then Some ""
  else None.

(** Catalog entries are compared field by field. *)
#[global] Instance vehicle_eq_dec : EqDecision vehicle.
Proof. solve_decision. Defined.

#[global] Instance item_eq_dec : EqDecision item.
Proof. solve_decision. Defined.

(** Entries picked from the served lists. *)
Definition picked_vehicle : vehicle := Vehicle "van-m" "Transit M" 23990.
Definition picked_color : item := Item "RED" "Signal Red" 690.
Definition picked_upholstery : item := Item "LEA-B" "Leather Black" 890.
Definition picked_options : list item :=
  [Item "NAV-PRO" "Navigation Pro" 1290; Item "PKG-COMF" "Comfort Package" 990].
Definition picked_extras : list item := [Item "MAT-RUB" "Rubber Floor Mats" 99].

(** A configuration object with the mandatory keys only, and the
    configuration it validates to. *)
Definition minimal_dict : gmap string pyval :=
  list_to_map [
    ("vehicle_id", PStr "truck-l"); ("vehicle_name", PStr "");
    ("color_code", PStr "WHI"); ("color_name", PStr "");
    ("upholstery_code", PStr "FAB-G"); ("upholstery_name", PStr "");
    ("customer", PDict (list_to_map [
       ("first_name", PStr "Ada"); ("last_name", PStr "Lovelace");
       ("email", PStr "ada@example.org")]))].

Definition minimal_cfg : Configuration :=
  mkConfiguration "truck-l" "" "WHI" "" "FAB-G" "" [] [] None
    (mkCustomer "Ada" "Lovelace" None "ada@example.org" None None None None None)
    None.

(** A complete configuration object whose client total is negative. *)
Definition negative_total_dict : gmap string pyval :=
  <["total_price" := PFloat (-1)%float]> (model_dump_dict sample_cfg).

(** The sample configuration as the handler resolves it. *)
Definition resolved_sample_cfg : Configuration :=
  mkConfiguration "van-s" "City Van S" "BLK" "Midnight Black" "FAB-G"
    "Fabric Grey" ["NAV-PRO"; "UNKNOWN-X"] [] None sample_customer
    (Some 20730%float).

(** An email validator that, like the one behind [EmailStr], returns the
    address with its domain in lower case; an address without an at sign is
    refused. *)
Definition lower_ascii (c : ascii) : ascii :=
  let n := N_of_ascii c in
  if (65 <=? n)%N && (n <=? 90)%N then ascii_of_N (n + 32) else c.

Fixpoint lower_string (s : string) : string :=
  match s with
  | EmptyString => EmptyString
  | String c rest => String (lower_ascii c) (lower_string rest)
  end.

Fixpoint normalising_validate_email (s : string) : option string :=
  match s with
  | EmptyString => None
  | String c rest =>
      if Ascii.eqb c "@"%char then Some (String c (lower_string rest))
      else String c <$> normalising_validate_email rest
  end.

(** A submission whose customer writes the domain of the email in capitals,
    and the body that carries it. *)
Definition capitals_customer : Customer :=
  mkCustomer "Ada" "Lovelace" (Some "Analytical Engines Ltd")
    "Ada@EXAMPLE.ORG" None None None (Some "London") None.

Definition capitals_cfg : Configuration :=
  mkConfiguration "van-s" "" "BLK" "" "FAB-G" ""
    ["NAV-PRO"; "UNKNOWN-X"] [] None capitals_customer None.

Definition capitals_dict : gmap string pyval := model_dump_dict capitals_cfg.

Definition capitals_body : pyval :=
  PDict {[ "configuration" := PDict capitals_dict ]}.

(** The configuration the handler stores for that body when the email
    validator lowers the domain. *)
Definition stored_capitals_cfg : Configuration :=
  mkConfiguration "van-s" "City Van S" "BLK" "Midnight Black" "FAB-G"
    "Fabric Grey" ["NAV-PRO"; "UNKNOWN-X"] [] None
    (mkCustomer "Ada" "Lovelace" (Some "Analytical Engines Ltd")
       "Ada@example.org" None None None (Some "London") None)
    (Some 20730%float).

(** A configuration in which no code names a catalog entry. *)
Definition unknown_cfg : Configuration :=
  mkConfiguration "bike" "" "PINK" "" "VELVET" "" ["TURBO"; "WINGS"] ["FLAG"]
    None sample_customer None.

(** A selection with one factory option, and the same with more add-ons. *)
Definition small_cfg : Configuration :=
  mkConfiguration "van-m" "" "SLV" "" "FAB-B" "" ["NAV-PRO"] []
    None sample_customer None.

Definition large_cfg : Configuration :=
  mkConfiguration "van-m" "" "SLV" "" "FAB-B" "" ["CAM-360"; "NAV-PRO"; "X"]
    ["RACK-ROOF"] None sample_customer None.

(** ** Facts on [next] and [sum] over a catalog *)

Section Catalog.

Implicit Types (catalog : list item) (vehicles : list vehicle).
Implicit Types (code : string) (codes : list string).

Lemma sum_from (a : Z) (g : list Z) : foldl Z.add a g = a + sum g.
Proof.
  unfold sum. revert a.
  induction g as [|x g IH]; intros a; simpl; [lia|].
  rewrite (IH (a + x)), (IH (0 + x)). lia.
Qed.

Lemma sum_cons (x : Z) (g : list Z) : sum (x :: g) = x + sum g.
Proof. unfold sum at 1. simpl. apply sum_from. Qed.

Lemma next_price_of catalog code :
  next (i_price <$> filter (λ c, i_code c = code) catalog) 0
  = Spec.price_of catalog code.
Proof.
  induction catalog as [|e rest IH]; [done|].
  rewrite filter_cons. simpl. destruct (decide (i_code e = code)); done.
Qed.

Lemma next_base_of vehicles id :
  next (v_base_price <$> filter (λ v, v_id v = id) vehicles) 0
  = Spec.base_of vehicles id.
Proof.
  induction vehicles as [|e rest IH]; [done|].
  rewrite filter_cons. simpl. destruct (decide (v_id e = id)); done.
Qed.

Lemma sum_selected_sum catalog codes :
  sum (i_price <$> filter (λ o, i_code o ∈ codes) catalog)
  = Spec.selected_sum catalog codes.
Proof.
  induction catalog as [|e rest IH]; [done|].
  rewrite filter_cons. simpl. destruct (decide (i_code e ∈ codes)).
  - rewrite fmap_cons, sum_cons, IH. done.
  - rewrite IH. lia.
Qed.

(** Only membership of the catalog's own codes matters to the sum. *)
Lemma selected_sum_ext catalog codes1 codes2 :
  (∀ c, c ∈ i_code <$> catalog → c ∈ codes1 ↔ c ∈ codes2) →
  Spec.selected_sum catalog codes1 = Spec.selected_sum catalog codes2.
Proof.
  induction catalog as [|e rest IH]; intros Hext; [done|].
  simpl. rewrite IH.
  - assert (i_code e ∈ codes1 ↔ i_code e ∈ codes2) as He
      by (apply Hext; rewrite fmap_cons; apply list_elem_of_here).
    destruct (decide (i_code e ∈ codes1)), (decide (i_code e ∈ codes2));
      tauto || lia.
  - intros c Hc. apply Hext. rewrite fmap_cons. by apply list_elem_of_further.
Qed.

(** A code that no entry carries is priced 0. *)
Lemma price_of_unmatched catalog code :
  code ∉ i_code <$> catalog → Spec.price_of catalog code = 0.
Proof.
  induction catalog as [|e rest IH]; [done|].
  rewrite fmap_cons, not_elem_of_cons. intros [Hne Hrest].
  simpl. rewrite decide_False by congruence. auto.
Qed.

Lemma base_of_unmatched vehicles id :
  id ∉ v_id <$> vehicles → Spec.base_of vehicles id = 0.
Proof.
  induction vehicles as [|e rest IH]; [done|].
  rewrite fmap_cons, not_elem_of_cons. intros [Hne Hrest].
  simpl. rewrite decide_False by congruence. auto.
Qed.

(** The lookups of [create_offer]: the first entry with the code, if any. *)
Lemma next_lookup_item catalog code :
  next (Some <$> filter (λ c, i_code c = code) catalog) None
  = Spec.lookup_item catalog code.
Proof.
  induction catalog as [|e rest IH]; [done|].
  rewrite filter_cons. simpl. destruct (decide (i_code e = code)); done.
Qed.

Lemma next_lookup_vehicle vehicles id :
  next (Some <$> filter (λ v, v_id v = id) vehicles) None
  = Spec.lookup_vehicle vehicles id.
Proof.
  induction vehicles as [|e rest IH]; [done|].
  rewrite filter_cons. simpl. destruct (decide (v_id e = id)); done.
Qed.

Lemma lookup_item_Some catalog code e :
  Spec.lookup_item catalog code = Some e → e ∈ catalog ∧ i_code e = code.
Proof.
  induction catalog as [|e' rest IH]; [done|].
  simpl. destruct (decide (i_code e' = code)).
  - intros [= ->]. split; [apply list_elem_of_here | done].
  - intros H. destruct (IH H). split; [by apply list_elem_of_further | done].
Qed.

Lemma lookup_item_None catalog code :
  Spec.lookup_item catalog code = None ↔ code ∉ i_code <$> catalog.
Proof.
  induction catalog as [|e' rest IH].
  - simpl. split; [intros _; apply not_elem_of_nil | done].
  - rewrite fmap_cons, not_elem_of_cons. simpl.
    destruct (decide (i_code e' = code)).
    + split; [done | intros [? _]; congruence].
    + rewrite IH. split; [intros ?; split; [congruence | done] | tauto].
Qed.

Lemma lookup_vehicle_Some vehicles id v :
  Spec.lookup_vehicle vehicles id = Some v → v ∈ vehicles ∧ v_id v = id.
Proof.
  induction vehicles as [|e' rest IH]; [done|].
  simpl. destruct (decide (v_id e' = id)).
  - intros [= ->]. split; [apply list_elem_of_here | done].
  - intros H. destruct (IH H). split; [by apply list_elem_of_further | done].
Qed.

Lemma lookup_vehicle_None vehicles id :
  Spec.lookup_vehicle vehicles id = None ↔ id ∉ v_id <$> vehicles.
Proof.
  induction vehicles as [|e' rest IH].
  - simpl. split; [intros _; apply not_elem_of_nil | done].
  - rewrite fmap_cons, not_elem_of_cons. simpl.
    destruct (decide (v_id e' = id)).
    + split; [done | intros [? _]; congruence].
    + rewrite IH. split; [intros ?; split; [congruence | done] | tauto].
Qed.

End Catalog.

(** ** Pricing *)

Lemma total_int_spec (cfg : Configuration) : total_int cfg = Spec.total cfg.
Proof.
  unfold total_int, Spec.total, base_price, color_price, up_price, opt_sum, acc_sum.
  by rewrite next_base_of, !next_price_of, !sum_selected_sum.
Qed.

(** The integer handed to [float] is small: the conversion is exact. *)
Lemma total_int_range (cfg : Configuration) : (0 ≤ total_int cfg ≤ 50867)%Z.
Proof.
  rewrite total_int_spec. unfold Spec.total.
  assert (0 ≤ Spec.base_of VEHICLES (vehicle_id cfg) ≤ 44990)%Z
    by (simpl; repeat case_decide; lia).
  assert (0 ≤ Spec.price_of COLORS (color_code cfg) ≤ 690)%Z
    by (simpl; repeat case_decide; lia).
  assert (0 ≤ Spec.price_of UPHOLSTERIES (upholstery_code cfg) ≤ 890)%Z
    by (simpl; repeat case_decide; lia).
  assert (0 ≤ Spec.selected_sum FACTORY_OPTIONS (factory_options cfg) ≤ 3720)%Z
    by (simpl; repeat case_decide; lia).
  assert (0 ≤ Spec.selected_sum ACCESSORIES (accessories cfg) ≤ 577)%Z
    by (simpl; repeat case_decide; lia).
  lia.
Qed.

(** C1. The computed total is the vehicle's base price plus the colour's
    price plus the upholstery's price plus the prices of the catalog
    factory options whose code is among [factory_options] plus the prices of
    the catalog accessories whose code is among [accessories]; a code that
    matches nothing adds 0. *)
Theorem calculate_total_additive (cfg : Configuration) :
  calculate_total cfg
  = float (Spec.base_of VEHICLES (vehicle_id cfg)
           + Spec.price_of COLORS (color_code cfg)
           + Spec.price_of UPHOLSTERIES (upholstery_code cfg)
           + Spec.selected_sum FACTORY_OPTIONS (factory_options cfg)
           + Spec.selected_sum ACCESSORIES (accessories cfg)).
Proof. unfold calculate_total. by rewrite total_int_spec. Qed.

(** Within each catalog list the codes are pairwise distinct. *)
Lemma catalog_codes_NoDup :
  NoDup (v_id <$> VEHICLES) ∧ NoDup (i_code <$> COLORS)
  ∧ NoDup (i_code <$> UPHOLSTERIES) ∧ NoDup (i_code <$> FACTORY_OPTIONS)
  ∧ NoDup (i_code <$> ACCESSORIES).
Proof. repeat split; by apply (bool_decide_unpack _). Qed.

Section PerCode.

Variable catalog : list item.
Hypothesis catalog_NoDup : NoDup (i_code <$> catalog).

Lemma selected_sum_nil : Spec.selected_sum catalog [] = 0.
Proof.
  clear catalog_NoDup. induction catalog as [|e rest IH]; [done|].
  unfold Spec.selected_sum; fold Spec.selected_sum. rewrite IH.
  rewrite decide_False; [done | apply not_elem_of_nil].
Qed.

(** One more submitted code adds the price of its entry, once. *)
Lemma selected_sum_cons (code : string) (codes : list string) :
  Spec.selected_sum catalog (code :: codes)
  = (if decide (code ∈ codes) then 0 else Spec.price_of catalog code)
    + Spec.selected_sum catalog codes.
Proof.
  induction catalog as [|e rest IH]; simpl.
  - by destruct (decide (code ∈ codes)).
  - rewrite fmap_cons in catalog_NoDup.
    apply NoDup_cons in catalog_NoDup as [Hfresh Hrest].
    rewrite (IH Hrest).
    destruct (decide (i_code e = code)) as [Heq|Hne].
    + rewrite Heq in Hfresh |- *.
      rewrite (price_of_unmatched rest code Hfresh).
      rewrite (decide_True (P := code ∈ code :: codes))
        by apply list_elem_of_here.
      destruct (decide (code ∈ codes)); lia.
    + assert (i_code e ∈ code :: codes ↔ i_code e ∈ codes) as Hiff.
      { rewrite elem_of_cons. tauto. }
      destruct (decide (i_code e ∈ code :: codes)),
        (decide (i_code e ∈ codes)), (decide (code ∈ codes)); tauto || lia.
Qed.

Lemma selected_sum_submitted_sum (codes : list string) :
  Spec.selected_sum catalog codes = Spec.submitted_sum catalog codes.
Proof.
  unfold Spec.submitted_sum.
  rewrite (selected_sum_ext catalog codes (remove_dups codes))
    by (intros c _; by rewrite elem_of_remove_dups).
  pose proof (NoDup_remove_dups codes) as Hnodup.
  induction Hnodup as [|c cs Hfresh _ IH]; simpl.
  - apply selected_sum_nil.
  - rewrite selected_sum_cons, decide_False by done. by rewrite IH.
Qed.

End PerCode.

(** The additive rule read from the submission's side: the total is the
    base price plus the prices of the distinct submitted codes. *)
Lemma total_int_per_code (cfg : Configuration) :
  total_int cfg
  = Spec.base_of VEHICLES (vehicle_id cfg)
    + Spec.price_of COLORS (color_code cfg)
    + Spec.price_of UPHOLSTERIES (upholstery_code cfg)
    + Spec.submitted_sum FACTORY_OPTIONS (factory_options cfg)
    + Spec.submitted_sum ACCESSORIES (accessories cfg).
Proof.
  rewrite total_int_spec. unfold Spec.total.
  destruct catalog_codes_NoDup as (_ & _ & _ & Ho & Ha).
  by rewrite (selected_sum_submitted_sum _ Ho), (selected_sum_submitted_sum _ Ha).
Qed.

(** The total depends on the add-on lists only through the membership of
    the catalog's codes. *)
Lemma total_int_ext (cfg1 cfg2 : Configuration) :
  vehicle_id cfg1 = vehicle_id cfg2 →
  color_code cfg1 = color_code cfg2 →
  upholstery_code cfg1 = upholstery_code cfg2 →
  (∀ c, c ∈ i_code <$> FACTORY_OPTIONS →
        c ∈ factory_options cfg1 ↔ c ∈ factory_options cfg2) →
  (∀ c, c ∈ i_code <$> ACCESSORIES →
        c ∈ accessories cfg1 ↔ c ∈ accessories cfg2) →
  total_int cfg1 = total_int cfg2.
Proof.
  intros Hv Hc Hu Ho Ha. rewrite !total_int_spec. unfold Spec.total.
  rewrite Hv, Hc, Hu.
  rewrite (selected_sum_ext FACTORY_OPTIONS _ _ Ho).
  by rewrite (selected_sum_ext ACCESSORIES _ _ Ha).
Qed.

(** C7. Repeating a code in [factory_options] or in [accessories] does not
    change the total: the total of a configuration is the total of the same
    configuration with the duplicates removed from both lists. *)
Theorem duplicates_have_no_price_effect (cfg : Configuration) :
  calculate_total
    (set_accessories (remove_dups (accessories cfg))
       (set_factory_options (remove_dups (factory_options cfg)) cfg))
  = calculate_total cfg.
Proof.
  unfold calculate_total. f_equal.
  apply total_int_ext; simpl; try done; intros c _; apply elem_of_remove_dups.
Qed.

(** C8. The total is a function of the selected codes alone: two
    configurations with the same vehicle, colour and upholstery codes whose
    add-on lists are permutations of each other get the same total, and a
    call of the pricing function returns that number whatever the world it
    is made in. *)
Theorem calculate_total_deterministic {DB : Type} (w1 w2 : world DB)
    (cfg1 cfg2 : Configuration) :
  vehicle_id cfg1 = vehicle_id cfg2 →
  color_code cfg1 = color_code cfg2 →
  upholstery_code cfg1 = upholstery_code cfg2 →
  factory_options cfg1 ≡ₚ factory_options cfg2 →
  accessories cfg1 ≡ₚ accessories cfg2 →
  calculate_total cfg1 = calculate_total cfg2
  ∧ fst (call_calculate_total cfg1 w1) = inr (calculate_total cfg1)
  ∧ fst (call_calculate_total cfg2 w2) = inr (calculate_total cfg1).
Proof.
  intros Hv Hc Hu Ho Ha.
  assert (calculate_total cfg1 = calculate_total cfg2) as Heq.
  { unfold calculate_total. f_equal.
    apply total_int_ext; try done; intros c _.
    - by rewrite Ho.
    - by rewrite Ha. }
  split; [done|]. split; [done|]. simpl. by rewrite Heq.
Qed.

Lemma calculate_total_deterministic_witness :
  calculate_total repeated_cfg = calculate_total reordered_cfg
  ∧ fst (call_calculate_total repeated_cfg (mkWorld [("configuration", PNone)] []))
    = inr (calculate_total repeated_cfg)
  ∧ fst (call_calculate_total reordered_cfg
            (mkWorld ([] : list (string * pyval)) []))
    = inr (calculate_total repeated_cfg).
Proof.
  apply calculate_total_deterministic; simpl; try reflexivity.
  - apply perm_swap.
  - apply perm_skip, perm_swap.
Defined.

(** ** Offer submission *)

Section Submission.

Context {DB : Type}.
Variable gw : string → pyval → DB → (exn + string) * DB.

(** One run of the handler, spelled out: a selection that does not resolve
    raises the 400 error and leaves the world alone; otherwise the handler
    prices the configuration with its names overwritten, hands the dump of
    the resolved configuration to the storage and answers by the
    storage's outcome. *)
Lemma create_offer_run (payload : OfferRequest) (w : world DB) :
  create_offer gw payload w
  = match Spec.with_names (configuration payload) with
    | None => (inl InvalidSelection, w)
    | Some cfg' =>
        let total := calculate_total cfg' in
        let data := model_dump (set_total_price (Some total) cfg') in
        let tr := trace w ++ [EvCalculateTotal cfg';
                              EvCreateDocument "configuration" data] in
        match gw "configuration" data (store w) with
        | (inr offer_id, db') =>
            (inr (OfferResponse.mk offer_id total), mkWorld db' tr)
        | (inl e, db') =>
            (inl (HTTPException 500 ("Database error: " +:+ str e)),
             mkWorld db' tr)
        end
    end.
Proof.
  unfold create_offer, Spec.with_names.
  rewrite next_lookup_vehicle, !next_lookup_item.
  generalize (Spec.lookup_vehicle VEHICLES (vehicle_id (configuration payload))).
  generalize (Spec.lookup_item COLORS (color_code (configuration payload))).
  generalize (Spec.lookup_item UPHOLSTERIES (upholstery_code (configuration payload))).
  intros [u|] [c|] [v|]; try done.
  unfold bind, try_except, create_document, call_calculate_total, bind, log, ret.
  simpl.
  destruct (gw _ _ _) as [[e|offer_id] db']; simpl;
    by rewrite <- app_assoc.
Qed.

End Submission.

Lemma with_names_None (cfg : Configuration) :
  Spec.with_names cfg = None ↔ ¬ Spec.valid_selection cfg.
Proof.
  unfold Spec.with_names, Spec.valid_selection.
  pose proof (lookup_vehicle_None VEHICLES (vehicle_id cfg)) as Hv.
  pose proof (lookup_item_None COLORS (color_code cfg)) as Hc.
  pose proof (lookup_item_None UPHOLSTERIES (upholstery_code cfg)) as Hu.
  destruct (decide (vehicle_id cfg ∈ v_id <$> VEHICLES)),
    (decide (color_code cfg ∈ i_code <$> COLORS)),
    (decide (upholstery_code cfg ∈ i_code <$> UPHOLSTERIES));
  destruct (Spec.lookup_vehicle VEHICLES (vehicle_id cfg)),
    (Spec.lookup_item COLORS (color_code cfg)),
    (Spec.lookup_item UPHOLSTERIES (upholstery_code cfg));
  simpl; intuition congruence.
Qed.

Lemma with_names_Some (cfg cfg' : Configuration) :
  Spec.with_names cfg = Some cfg' →
  ∃ v c u,
    (v ∈ VEHICLES ∧ v_id v = vehicle_id cfg)
    ∧ (c ∈ COLORS ∧ i_code c = color_code cfg)
    ∧ (u ∈ UPHOLSTERIES ∧ i_code u = upholstery_code cfg)
    ∧ cfg' = set_upholstery_name (i_name u)
               (set_color_name (i_name c) (set_vehicle_name (v_name v) cfg)).
Proof.
  unfold Spec.with_names. intros H.
  destruct (Spec.lookup_vehicle VEHICLES (vehicle_id cfg)) as [v|] eqn:Hv;
    [|done].
  destruct (Spec.lookup_item COLORS (color_code cfg)) as [c|] eqn:Hc; [|done].
  destruct (Spec.lookup_item UPHOLSTERIES (upholstery_code cfg)) as [u|] eqn:Hu;
    [|done].
  exists v, c, u. injection H as <-.
  apply lookup_vehicle_Some in Hv. apply lookup_item_Some in Hc, Hu. done.
Qed.

Lemma valid_selection_with_names (cfg : Configuration) :
  Spec.valid_selection cfg → ∃ cfg', Spec.with_names cfg = Some cfg'.
Proof.
  intros Hvalid. destruct (Spec.with_names cfg) as [cfg'|] eqn:H; [eauto|].
  by apply with_names_None in H.
Qed.

(** Overwriting the names and the total does not touch what is priced. *)
Lemma calculate_total_with_names (cfg cfg' : Configuration) :
  Spec.with_names cfg = Some cfg' → calculate_total cfg' = calculate_total cfg.
Proof.
  intros (v & c & u & _ & _ & _ & ->)%with_names_Some. done.
Qed.

(** Submissions with the same client choices resolve to records with the
    same dump and the same total. *)
Lemma with_names_same_choices (cfg1 cfg2 cfg1' : Configuration) :
  same_client_choices cfg1 cfg2 →
  Spec.with_names cfg1 = Some cfg1' →
  ∃ cfg2', Spec.with_names cfg2 = Some cfg2'
    ∧ calculate_total cfg2' = calculate_total cfg1'
    ∧ ∀ t, model_dump (set_total_price t cfg2')
           = model_dump (set_total_price t cfg1').
Proof.
  intros (Hv & Hc & Hu & Ho & Ha & Hs & Hcu) Hcfg1'.
  destruct (with_names_Some _ _ Hcfg1') as (v & c & u & _ & _ & _ & Heq).
  exists (set_upholstery_name (i_name u)
            (set_color_name (i_name c) (set_vehicle_name (v_name v) cfg2))).
  split; [|split].
  - revert Hcfg1'. unfold Spec.with_names. rewrite <- Hv, <- Hc, <- Hu.
    destruct (Spec.lookup_vehicle VEHICLES (vehicle_id cfg1)) as [v1|]; [|done].
    destruct (Spec.lookup_item COLORS (color_code cfg1)) as [c1|]; [|done].
    destruct (Spec.lookup_item UPHOLSTERIES (upholstery_code cfg1)) as [u1|];
      [|done].
    simpl. rewrite Heq. by intros [= -> -> ->].
  - rewrite Heq. unfold calculate_total. f_equal. symmetry.
    apply total_int_ext; simpl; try done; intros; by rewrite ?Ho, ?Ha.
  - intros t. rewrite Heq. unfold model_dump, model_dump_dict. simpl.
    by rewrite Hv, Hc, Hu, Ho, Ha, Hs, Hcu.
Qed.

(** The dump of a resolved configuration, field by field. *)
Lemma model_dump_dict_resolved (cfg : Configuration) (v : vehicle) (c u : item)
    (t : option pyfloat) :
  let data :=
    model_dump_dict
      (set_total_price t
         (set_upholstery_name (i_name u)
            (set_color_name (i_name c) (set_vehicle_name (v_name v) cfg)))) in
  data !! "vehicle_name" = Some (PStr (v_name v))
  ∧ data !! "color_name" = Some (PStr (i_name c))
  ∧ data !! "upholstery_name" = Some (PStr (i_name u))
  ∧ data !! "total_price" = Some (dump_optional_float t).
Proof. done. Qed.

Section SubmissionClaims.

Context {DB : Type}.
Variable gw : string → pyval → DB → (exn + string) * DB.

(** C2. A submission whose vehicle id, colour code or upholstery code
    matches no code of its catalog list fails with the 400 error
    "Invalid catalog selection", and the world is left as it was: the
    storage was not written and the trace gained no call, neither to the
    pricing function nor to the storage. *)
Theorem invalid_selection_rejected (payload : OfferRequest) (w : world DB) :
  vehicle_id (configuration payload) ∉ v_id <$> VEHICLES
  ∨ color_code (configuration payload) ∉ i_code <$> COLORS
  ∨ upholstery_code (configuration payload) ∉ i_code <$> UPHOLSTERIES →
  create_offer gw payload w
  = (inl (HTTPException 400 "Invalid catalog selection"), w).
Proof.
  intros Hinvalid. rewrite create_offer_run.
  assert (Spec.with_names (configuration payload) = None) as ->; [|done].
  apply with_names_None. unfold Spec.valid_selection. tauto.
Qed.

(** C3. With valid vehicle, colour and upholstery codes, a submission
    that carries an add-on code the catalog does not know is not rejected:
    the handler does not raise the 400 error, it answers with the new
    identifier and the total whenever the storage accepts the document, and
    the unknown code adds nothing to the total. *)
Theorem unknown_addon_tolerated (k : addon) (cfg : Configuration)
    (x : string) (w : world DB) :
  Spec.valid_selection cfg →
  x ∈ addon_codes k cfg →
  x ∉ i_code <$> addon_catalog k →
  fst (create_offer gw (mkOfferRequest cfg) w)
    ≠ inl (HTTPException 400 "Invalid catalog selection")
  ∧ (∃ cfg', Spec.resolve cfg = Some cfg'
       ∧ ∀ offer_id db',
           gw "configuration" (model_dump cfg') (store w) = (inr offer_id, db') →
           fst (create_offer gw (mkOfferRequest cfg) w)
           = inr (OfferResponse.mk offer_id (calculate_total cfg)))
  ∧ calculate_total cfg
    = calculate_total
        (set_addon_codes k (filter (λ c, c ≠ x) (addon_codes k cfg)) cfg).
Proof.
  intros Hvalid Hin Hunknown.
  destruct (valid_selection_with_names cfg Hvalid) as [cfg' Hcfg'].
  pose proof (calculate_total_with_names _ _ Hcfg') as Htotal.
  rewrite create_offer_run. simpl. rewrite Hcfg'. simpl.
  split; [|split].
  - destruct (gw _ _ _) as [[e|offer_id] db']; simpl; unfold InvalidSelection;
      congruence.
  - exists (set_total_price (Some (calculate_total cfg')) cfg').
    unfold Spec.resolve. rewrite Hcfg'. split; [done|].
    intros offer_id db' ->. simpl. by rewrite Htotal.
  - unfold calculate_total. f_equal.
    assert (∀ c, c ∈ i_code <$> addon_catalog k →
              c ∈ addon_codes k cfg
              ↔ c ∈ filter (λ c, c ≠ x) (addon_codes k cfg)) as Hmem.
    { intros c Hc. rewrite list_elem_of_filter.
      split; [|tauto]. intros ?. split; [|done]. by intros ->. }
    destruct k; apply total_int_ext; simpl; try done; exact Hmem.
Qed.

(** C4. Two valid submissions that differ only in the names and the total
    the client sent get the same outcome and leave the same storage; the
    total of the answer is the computed one, and the one document handed
    to the storage carries the names of the catalog entries that the
    submitted codes select, and the computed total. *)
Theorem server_side_override (cfg1 cfg2 : Configuration) (w : world DB) :
  Spec.valid_selection cfg1 →
  same_client_choices cfg1 cfg2 →
  ∃ v c u data,
    (v ∈ VEHICLES ∧ v_id v = vehicle_id cfg1)
    ∧ (c ∈ COLORS ∧ i_code c = color_code cfg1)
    ∧ (u ∈ UPHOLSTERIES ∧ i_code u = upholstery_code cfg1)
    ∧ data !! "vehicle_name" = Some (PStr (v_name v))
    ∧ data !! "color_name" = Some (PStr (i_name c))
    ∧ data !! "upholstery_name" = Some (PStr (i_name u))
    ∧ data !! "total_price" = Some (PFloat (calculate_total cfg1))
    ∧ documents_written (trace (snd (create_offer gw (mkOfferRequest cfg1) w)))
      = documents_written (trace w) ++ [("configuration", PDict data)]
    ∧ documents_written (trace (snd (create_offer gw (mkOfferRequest cfg2) w)))
      = documents_written (trace w) ++ [("configuration", PDict data)]
    ∧ fst (create_offer gw (mkOfferRequest cfg1) w)
      = fst (create_offer gw (mkOfferRequest cfg2) w)
    ∧ store (snd (create_offer gw (mkOfferRequest cfg1) w))
      = store (snd (create_offer gw (mkOfferRequest cfg2) w))
    ∧ ∀ resp, fst (create_offer gw (mkOfferRequest cfg1) w) = inr resp →
              OfferResponse.total_price resp = calculate_total cfg1.
Proof.
  intros Hvalid Hsame.
  destruct (valid_selection_with_names cfg1 Hvalid) as [cfg1' Hcfg1'].
  pose proof (calculate_total_with_names _ _ Hcfg1') as Htotal.
  destruct (with_names_Some _ _ Hcfg1') as (v & c & u & Hv & Hc & Hu & Heq).
  destruct (with_names_same_choices _ _ _ Hsame Hcfg1')
    as (cfg2' & Hcfg2' & Htotal2 & Hdump).
  exists v, c, u,
    (model_dump_dict (set_total_price (Some (calculate_total cfg1)) cfg1')).
  rewrite !create_offer_run. simpl. rewrite Hcfg1', Hcfg2'. simpl.
  rewrite Htotal2, Hdump, Htotal.
  pose proof (model_dump_dict_resolved cfg1 v c u (Some (calculate_total cfg1)))
    as (Hn1 & Hn2 & Hn3 & Hn4).
  rewrite <- Heq in Hn1, Hn2, Hn3, Hn4.
  unfold model_dump at 1 2.
  do 3 (split; [assumption|]).
  split; [exact Hn1|]. split; [exact Hn2|]. split; [exact Hn3|].
  split; [exact Hn4|].
  destruct (gw _ _ _) as [[e|offer_id] db']; simpl;
    unfold documents_written; rewrite !omap_app; simpl;
    (split; [reflexivity|]); (split; [reflexivity|]);
    (split; [reflexivity|]); (split; [reflexivity|]).
  - intros resp [=].
  - by intros resp [= <-].
Qed.

(** C5. The worked example: van-s in BLK with FAB-G, the factory options
    NAV-PRO and UNKNOWN-X and no accessory is priced 20730, whatever the
    other fields of the submission hold; the handler answers with that
    total whenever the storage accepts the document. *)
Theorem worked_example_total (vn cn un : string) (sa : option string)
    (cust : Customer) (tp : option pyfloat) (w : world DB) :
  let cfg := mkConfiguration "van-s" vn "BLK" cn "FAB-G" un
               ["NAV-PRO"; "UNKNOWN-X"] [] sa cust tp in
  calculate_total cfg = 20730%float
  ∧ ∃ data,
      fst (create_offer gw (mkOfferRequest cfg) w)
      = match fst (gw "configuration" data (store w)) with
        | inr offer_id => inr (OfferResponse.mk offer_id 20730%float)
        | inl e => inl (HTTPException 500 ("Database error: " +:+ str e))
        end.
Proof.
  intros cfg. split; [done|].
  rewrite create_offer_run.
  subst cfg.
  set (named := mkConfiguration "van-s" "City Van S" "BLK" "Midnight Black"
                  "FAB-G" "Fabric Grey" ["NAV-PRO"; "UNKNOWN-X"] [] sa cust).
  exists (model_dump (named (Some 20730%float))).
  change (Spec.with_names _) with (Some (named tp)).
  cbv beta iota zeta.
  change (calculate_total _) with 20730%float.
  change (set_total_price _ _) with (named (Some 20730%float)).
  destruct (gw _ _ _) as [[e|offer_id] db']; reflexivity.
Qed.

(** C6. When the selection is valid and the storage raises on the
    document of the resolved configuration, the handler raises the 500
    error whose detail is "Database error: " followed by the text of the
    storage's exception; this is not the 400 error of a rejected
    selection, no answer with an identifier is returned, and the one
    document the trace shows is the one the storage refused. *)
Theorem persistence_failure_is_server_fault (cfg cfg' : Configuration)
    (e : exn) (db' : DB) (w : world DB) :
  Spec.valid_selection cfg →
  Spec.resolve cfg = Some cfg' →
  gw "configuration" (model_dump cfg') (store w) = (inl e, db') →
  fst (create_offer gw (mkOfferRequest cfg) w)
    = inl (HTTPException 500 ("Database error: " +:+ str e))
  ∧ fst (create_offer gw (mkOfferRequest cfg) w)
    ≠ inl (HTTPException 400 "Invalid catalog selection")
  ∧ (∀ resp, fst (create_offer gw (mkOfferRequest cfg) w) ≠ inr resp)
  ∧ documents_written (trace (snd (create_offer gw (mkOfferRequest cfg) w)))
    = documents_written (trace w) ++ [("configuration", model_dump cfg')]
  ∧ store (snd (create_offer gw (mkOfferRequest cfg) w)) = db'.
Proof.
  intros _ Hresolve Hfail. unfold Spec.resolve in Hresolve.
  rewrite create_offer_run. simpl.
  destruct (Spec.with_names cfg) as [cfg1|]; [|done].
  simpl in Hresolve. injection Hresolve as <-. simpl. rewrite Hfail. simpl.
  unfold documents_written. rewrite omap_app. simpl.
  repeat split; congruence.
Qed.

(** After a successful run of the handler the trace shows one more
    document, written to the collection "configuration": a record with
    exactly the fields of [Configuration], in which every field other than
    the three names and the total holds the dump of what the request model
    held, in particular the add-on lists, the special agreement and the
    customer. *)
Lemma persisted_record_of_model (cfg : Configuration)
    (resp : OfferResponse.t) (w w' : world DB) :
  create_offer gw (mkOfferRequest cfg) w = (inr resp, w') →
  ∃ data : gmap string pyval,
    documents_written (trace w')
      = documents_written (trace w) ++ [("configuration", PDict data)]
    ∧ dom data = list_to_set Configuration_fields
    ∧ (∀ k, k ∉ derived_fields → data !! k = model_dump_dict cfg !! k)
    ∧ data !! "factory_options" = Some (PList (PStr <$> factory_options cfg))
    ∧ data !! "accessories" = Some (PList (PStr <$> accessories cfg))
    ∧ data !! "special_agreement"
      = Some (dump_optional_str (special_agreement cfg))
    ∧ data !! "customer" = Some (dump_customer (customer cfg)).
Proof.
  rewrite create_offer_run. simpl.
  destruct (Spec.with_names cfg) as [cfg1|] eqn:Hnames; [|done].
  destruct (with_names_Some _ _ Hnames) as (v & c & u & _ & _ & _ & ->).
  simpl. destruct (gw _ _ _) as [[e|offer_id] db']; [done|].
  intros [= <- <-]. simpl.
  eexists. split.
  { unfold documents_written. rewrite omap_app. simpl. reflexivity. }
  split.
  { unfold model_dump_dict. by rewrite dom_list_to_map_L. }
  split; [|done].
  intros k Hk. unfold derived_fields in Hk.
  unfold model_dump_dict.
  rewrite !list_to_map_cons, !list_to_map_nil. simpl.
  rewrite !lookup_insert.
  repeat case_decide; try done; subst k; exfalso; apply Hk; set_solver.
Qed.

End SubmissionClaims.

Lemma invalid_selection_rejected_witness :
  (vehicle_id nonexistent_cfg ∉ v_id <$> VEHICLES)
  ∧ create_offer memory_create_document (mkOfferRequest nonexistent_cfg)
      empty_world
    = (inl (HTTPException 400 "Invalid catalog selection"), empty_world).
Proof.
  assert (vehicle_id nonexistent_cfg ∉ v_id <$> VEHICLES) as H.
  { by apply (bool_decide_unpack _). }
  split; [exact H|].
  apply invalid_selection_rejected. left. exact H.
Defined.

Lemma sample_cfg_valid : Spec.valid_selection sample_cfg.
Proof. by apply (bool_decide_unpack _). Qed.

Lemma unknown_addon_tolerated_witness :
  Spec.valid_selection sample_cfg
  ∧ "UNKNOWN-X" ∈ addon_codes FactoryOption sample_cfg
  ∧ ("UNKNOWN-X" ∉ i_code <$> addon_catalog FactoryOption)
  ∧ fst (create_offer memory_create_document (mkOfferRequest sample_cfg)
           empty_world)
    ≠ inl (HTTPException 400 "Invalid catalog selection")
  ∧ calculate_total sample_cfg
    = calculate_total
        (set_addon_codes FactoryOption
           (filter (λ c, c ≠ "UNKNOWN-X") (addon_codes FactoryOption sample_cfg))
           sample_cfg).
Proof.
  assert ("UNKNOWN-X" ∈ addon_codes FactoryOption sample_cfg) as Hin.
  { by apply (bool_decide_unpack _). }
  assert ("UNKNOWN-X" ∉ i_code <$> addon_catalog FactoryOption) as Hunknown.
  { by apply (bool_decide_unpack _). }
  split; [exact sample_cfg_valid|]. split; [exact Hin|].
  split; [exact Hunknown|].
  destruct (unknown_addon_tolerated memory_create_document FactoryOption
              sample_cfg "UNKNOWN-X" empty_world sample_cfg_valid Hin Hunknown)
    as (Hnot400 & _ & Hzero).
  split; [exact Hnot400 | exact Hzero].
Defined.

Lemma sample_forged_same_choices : same_client_choices sample_cfg forged_cfg.
Proof. repeat split. Qed.

Lemma server_side_override_witness :
  Spec.valid_selection sample_cfg
  ∧ same_client_choices sample_cfg forged_cfg
  ∧ fst (create_offer memory_create_document (mkOfferRequest sample_cfg)
           empty_world)
    = fst (create_offer memory_create_document (mkOfferRequest forged_cfg)
             empty_world)
  ∧ documents_written
      (trace (snd (create_offer memory_create_document
                     (mkOfferRequest sample_cfg) empty_world)))
    = documents_written
        (trace (snd (create_offer memory_create_document
                       (mkOfferRequest forged_cfg) empty_world))).
Proof.
  split; [exact sample_cfg_valid|]. split; [exact sample_forged_same_choices|].
  destruct (server_side_override memory_create_document sample_cfg forged_cfg
              empty_world sample_cfg_valid sample_forged_same_choices)
    as (v & c & u & data & _ & _ & _ & _ & _ & _ & _ & Hd1 & Hd2 & Hfst & _).
  split; [exact Hfst|]. rewrite Hd1, Hd2. reflexivity.
Defined.

Lemma persistence_failure_is_server_fault_witness :
  Spec.valid_selection sample_cfg
  ∧ fst (create_offer unreachable_create_document (mkOfferRequest sample_cfg)
           offline_world)
    = inl (HTTPException 500 "Database error: connection refused").
Proof.
  split; [exact sample_cfg_valid|].
  refine (proj1 (persistence_failure_is_server_fault
                   unreachable_create_document sample_cfg
                   (set_total_price (Some 20730%float)
                      (set_upholstery_name "Fabric Grey"
                         (set_color_name "Midnight Black"
                            (set_vehicle_name "City Van S" sample_cfg))))
                   (Exception "connection refused") tt offline_world
                   sample_cfg_valid _ _)); reflexivity.
Defined.

(** ** Request validation *)

Section ValidationClaims.

Variable validate_email : string → option string.
Variable coerce_float : pyval → option pyfloat.

Lemma required_str_present (d : gmap string pyval) (k s : string) :
  required validate_str d k = Some s → is_str (d !! k) = true.
Proof. unfold required. by destruct (d !! k) as [[]|]. Qed.

Lemma required_email_present (d : gmap string pyval) (k s : string) :
  required (validate_EmailStr validate_email) d k = Some s →
  is_valid_email validate_email (d !! k) = true.
Proof.
  unfold required, validate_EmailStr.
  destruct (d !! k) as [[]|]; simpl; try done.
  intros H. apply bool_decide_eq_true. eauto.
Qed.

Lemma validate_Customer_present (d : gmap string pyval) (k : string)
    (c : Customer) :
  required (validate_Customer validate_email) d k = Some c →
  customer_present validate_email (d !! k) = true.
Proof.
  unfold required at 1. destruct (d !! k) as [[]|]; simpl; try done.
  intros H.
  apply bind_Some in H as (fn & Hfn%required_str_present & H).
  apply bind_Some in H as (ln & Hln%required_str_present & H).
  apply bind_Some in H as (co & _ & H).
  apply bind_Some in H as (em & Hem%required_email_present & _).
  by rewrite Hfn, Hln, Hem.
Qed.

(** A body the validators accept carries every mandatory field. *)
Lemma validate_OfferRequest_present (body : pyval) (payload : OfferRequest) :
  validate_OfferRequest validate_email coerce_float body = Some payload →
  mandatory_fields_present validate_email body = true.
Proof.
  destruct body as [| | | | |l|b]; try done. simpl.
  intros H. apply bind_Some in H as (cfg & H & _).
  unfold required in H at 1.
  destruct (b !! "configuration") as [[| | | | |l|d]|]; try done. simpl in H.
  apply bind_Some in H as (x1 & _ & H).
  apply bind_Some in H as (x2 & H2%required_str_present & H).
  apply bind_Some in H as (x3 & _ & H).
  apply bind_Some in H as (x4 & H4%required_str_present & H).
  apply bind_Some in H as (x5 & _ & H).
  apply bind_Some in H as (x6 & H6%required_str_present & H).
  apply bind_Some in H as (x7 & _ & H).
  apply bind_Some in H as (x8 & _ & H).
  apply bind_Some in H as (x9 & _ & H).
  apply bind_Some in H as (x10 & H10%validate_Customer_present & _).
  by rewrite H2, H4, H6, H10.
Qed.

Context {DB : Type}.
Variable gw : string → pyval → DB → (exn + string) * DB.

(** C10. A body that lacks one of the names [vehicle_name], [color_name]
    or [upholstery_name] as a string, or a customer with first name, last
    name and a valid email, is refused by the validation of the request:
    the client gets the validation error, the handler does not run and the
    world is left as it was. *)
Theorem missing_mandatory_field_rejected (body : pyval) (w : world DB) :
  mandatory_fields_present validate_email body = false →
  post_api_offers validate_email coerce_float gw body w = (Response422, w).
Proof.
  intros Hmissing. unfold post_api_offers.
  destruct (validate_OfferRequest validate_email coerce_float body)
    as [payload|] eqn:Hvalidate; [|done].
  apply validate_OfferRequest_present in Hvalidate. congruence.
Qed.

(** On a body that validates, a selection that does not resolve is
    answered 400 with the message of the handler, and a refused write is
    answered 500 with the text of the storage's exception. *)
Lemma post_api_offers_invalid_selection (body : pyval)
    (payload : OfferRequest) (w : world DB) :
  validate_OfferRequest validate_email coerce_float body = Some payload →
  ¬ Spec.valid_selection (configuration payload) →
  post_api_offers validate_email coerce_float gw body w
  = (ResponseHTTPException 400 "Invalid catalog selection", w).
Proof.
  intros Hvalidate Hinvalid%with_names_None. unfold post_api_offers.
  by rewrite Hvalidate, create_offer_run, Hinvalid.
Qed.

Lemma post_api_offers_storage_failure (body : pyval) (payload : OfferRequest)
    (cfg' : Configuration) (e : exn) (db' : DB) (w : world DB) :
  validate_OfferRequest validate_email coerce_float body = Some payload →
  Spec.resolve (configuration payload) = Some cfg' →
  gw "configuration" (model_dump cfg') (store w) = (inl e, db') →
  fst (post_api_offers validate_email coerce_float gw body w)
  = ResponseHTTPException 500 ("Database error: " +:+ str e).
Proof.
  intros Hvalidate Hresolve Hfail. unfold post_api_offers.
  rewrite Hvalidate, create_offer_run. unfold Spec.resolve in Hresolve.
  destruct (Spec.with_names (configuration payload)) as [cfg1|]; [|done].
  simpl in Hresolve. injection Hresolve as <-. simpl. by rewrite Hfail.
Qed.

End ValidationClaims.

(** A body with every field is accepted and goes through the handler. *)
Example complete_body_accepted :
  fst (post_api_offers simple_validate_email simple_coerce_float
         memory_create_document
         (PDict {[ "configuration" := model_dump sample_cfg ]}) empty_world)
  = Response200 (OfferResponse.mk "offer-0" 20730%float).
Proof. reflexivity. Qed.

Lemma missing_mandatory_field_rejected_witness :
  mandatory_fields_present simple_validate_email body_without_vehicle_name
    = false
  ∧ post_api_offers simple_validate_email simple_coerce_float
      memory_create_document body_without_vehicle_name empty_world
    = (Response422, empty_world).
Proof.
  split; [reflexivity|].
  apply missing_mandatory_field_rejected. reflexivity.
Defined.


(** ** More on pricing *)

Section Values.

Implicit Types (catalog : list item) (vehicles : list vehicle).

Lemma price_of_values catalog code :
  Spec.price_of catalog code ∈ lookup_values (i_price <$> catalog).
Proof.
  unfold lookup_values. induction catalog as [|e rest IH]; simpl.
  - apply list_elem_of_here.
  - destruct (decide (i_code e = code)).
    + apply list_elem_of_further, list_elem_of_here.
    + apply elem_of_cons in IH as [->|IH].
      * apply list_elem_of_here.
      * by do 2 apply list_elem_of_further.
Qed.

Lemma base_of_values vehicles id :
  Spec.base_of vehicles id ∈ lookup_values (v_base_price <$> vehicles).
Proof.
  unfold lookup_values. induction vehicles as [|e rest IH]; simpl.
  - apply list_elem_of_here.
  - destruct (decide (v_id e = id)).
    + apply list_elem_of_further, list_elem_of_here.
    + apply elem_of_cons in IH as [->|IH].
      * apply list_elem_of_here.
      * by do 2 apply list_elem_of_further.
Qed.

Lemma selected_sum_values catalog codes :
  Spec.selected_sum catalog codes ∈ subset_sums (i_price <$> catalog).
Proof.
  induction catalog as [|e rest IH]; simpl.
  - apply list_elem_of_here.
  - apply elem_of_app. destruct (decide (i_code e ∈ codes)).
    + left. by apply (list_elem_of_fmap_2 (λ n, i_price e + n)).
    + right. done.
Qed.

End Values.

Lemma total_int_possible (cfg : Configuration) : total_int cfg ∈ possible_totals.
Proof.
  rewrite total_int_spec. unfold Spec.total, possible_totals.
  apply list_elem_of_bind. eexists. split; [|apply base_of_values].
  apply list_elem_of_bind. eexists. split; [|apply price_of_values].
  apply list_elem_of_bind. eexists. split; [|apply price_of_values].
  apply list_elem_of_bind. eexists. split; [|apply selected_sum_values].
  apply list_elem_of_bind. eexists. split; [|apply selected_sum_values].
  apply list_elem_of_here.
Qed.

(** A check that holds of every possible total holds of the total of every
    configuration. *)
Lemma possible_totals_forallb (P : Z → bool) (cfg : Configuration) :
  forallb P possible_totals = true → P (total_int cfg) = true.
Proof.
  intros Hall. rewrite forallb_forall in Hall. apply Hall.
  apply list_elem_of_In, total_int_possible.
Qed.

Lemma exact_int_float_total (cfg : Configuration) :
  exact_int (float (total_int cfg)) = Some (total_int cfg).
Proof.
  pose (check := λ n, match exact_int (float n) with
                      | Some m => (m =? n)%Z
                      | None => false
                      end).
  assert (check (total_int cfg) = true) as Hcheck.
  { apply possible_totals_forallb. vm_compute. reflexivity. }
  unfold check in Hcheck.
  destruct (exact_int (float (total_int cfg))) as [m|]; [|done].
  apply Z.eqb_eq in Hcheck. by subst m.
Qed.

(** X1. The conversion to a float at the end of [calculate_total] loses
    nothing: the float returned denotes exactly the integer sum of the five
    parts. *)
Theorem calculate_total_exact (cfg : Configuration) :
  exact_int (calculate_total cfg)
  = Some (base_price cfg + color_price cfg + up_price cfg
          + opt_sum cfg + acc_sum cfg).
Proof. apply exact_int_float_total. Qed.

(** X2. The computed total is never negative and never above 50867: it
    passes the [ge=0] check that the field [total_price] declares, although
    the assignment in [create_offer] does not run that check. *)
Theorem calculate_total_within_bounds (cfg : Configuration) :
  (0 <=? calculate_total cfg)%float = true
  ∧ (calculate_total cfg <=? 50867)%float = true.
Proof.
  unfold calculate_total. split.
  - apply (possible_totals_forallb (λ n, (0 <=? float n)%float)).
    vm_compute. reflexivity.
  - apply (possible_totals_forallb (λ n, (float n <=? 50867)%float)).
    vm_compute. reflexivity.
Qed.

(** In every catalog list the prices are non-negative. *)
Lemma catalog_prices_nonneg :
  Forall (λ e, (0 ≤ i_price e)%Z) FACTORY_OPTIONS
  ∧ Forall (λ e, (0 ≤ i_price e)%Z) ACCESSORIES.
Proof. split; repeat constructor; simpl; lia. Qed.

Section MoreOnSums.

Variable catalog : list item.

Lemma selected_sum_unmatched (codes : list string) :
  (∀ c, c ∈ codes → c ∉ i_code <$> catalog) →
  Spec.selected_sum catalog codes = 0.
Proof.
  intros Hnone. rewrite <- (selected_sum_nil catalog).
  apply selected_sum_ext. intros c Hc. split.
  - intros Hin. by destruct (Hnone c Hin).
  - by intros ?%not_elem_of_nil.
Qed.

Lemma selected_sum_mono (codes1 codes2 : list string) :
  Forall (λ e, (0 ≤ i_price e)%Z) catalog →
  codes1 ⊆ codes2 →
  (Spec.selected_sum catalog codes1 ≤ Spec.selected_sum catalog codes2)%Z.
Proof.
  intros Hnonneg Hsub. induction Hnonneg as [|e rest He _ IH]; simpl; [done|].
  destruct (decide (i_code e ∈ codes1)) as [Hin|], (decide (i_code e ∈ codes2));
    try lia.
  by apply Hsub in Hin.
Qed.

Hypothesis catalog_NoDup : NoDup (i_code <$> catalog).

(** With distinct codes an entry is found under its own code. *)
Lemma lookup_item_member (e : item) :
  e ∈ catalog → Spec.lookup_item catalog (i_code e) = Some e.
Proof.
  induction catalog as [|e' rest IH]; [by intros ?%not_elem_of_nil|].
  rewrite fmap_cons in catalog_NoDup.
  apply NoDup_cons in catalog_NoDup as [Hfresh Hrest].
  intros [->|Hin]%elem_of_cons; simpl.
  - by rewrite decide_True.
  - rewrite decide_False; [by apply IH|].
    intros Heq. apply Hfresh. rewrite Heq. by apply list_elem_of_fmap_2.
Qed.

Lemma price_of_member (e : item) :
  e ∈ catalog → Spec.price_of catalog (i_code e) = i_price e.
Proof.
  induction catalog as [|e' rest IH]; [by intros ?%not_elem_of_nil|].
  rewrite fmap_cons in catalog_NoDup.
  apply NoDup_cons in catalog_NoDup as [Hfresh Hrest].
  intros [->|Hin]%elem_of_cons; simpl.
  - by rewrite decide_True.
  - rewrite decide_False; [by apply IH|].
    intros Heq. apply Hfresh. rewrite Heq. by apply list_elem_of_fmap_2.
Qed.

(** Distinct entries of the catalog carry distinct codes. *)
Lemma catalog_code_inj (e1 e2 : item) :
  e1 ∈ catalog → e2 ∈ catalog → i_code e1 = i_code e2 → e1 = e2.
Proof.
  intros H1%lookup_item_member H2%lookup_item_member Heq.
  rewrite Heq in H1. congruence.
Qed.

(** The membership sum over the codes of distinct catalog entries is the
    sum of their prices. *)
Lemma selected_sum_entries (entries : list item) :
  NoDup entries → entries ⊆ catalog →
  Spec.selected_sum catalog (i_code <$> entries) = sum (i_price <$> entries).
Proof.
  intros Hnodup. induction Hnodup as [|e es Hfresh _ IH]; intros Hsub.
  - apply selected_sum_nil.
  - assert (e ∈ catalog) as He by (apply Hsub, list_elem_of_here).
    assert (es ⊆ catalog) as Hes
      by (intros x Hx; by apply Hsub, list_elem_of_further).
    rewrite !fmap_cons, sum_cons, (selected_sum_cons catalog catalog_NoDup).
    rewrite (IH Hes), (price_of_member e He).
    rewrite decide_False; [done|].
    intros (e' & Heq & Hin)%list_elem_of_fmap.
    apply Hfresh. by rewrite (catalog_code_inj e e' He (Hes _ Hin) Heq).
Qed.

End MoreOnSums.

Lemma lookup_vehicle_member (v : vehicle) :
  v ∈ VEHICLES → Spec.lookup_vehicle VEHICLES (v_id v) = Some v.
Proof.
  unfold VEHICLES. rewrite !elem_of_cons.
  intros [->|[->|[->|?%not_elem_of_nil]]]; done.
Qed.

Lemma base_of_lookup_vehicle (vehicles : list vehicle) (id : string) (v : vehicle) :
  Spec.lookup_vehicle vehicles id = Some v →
  Spec.base_of vehicles id = v_base_price v.
Proof.
  induction vehicles as [|v' rest IH]; [done|]. simpl.
  destruct (decide (v_id v' = id)); [by intros [= ->] | done].
Qed.

(** X3. [calculate_total] does not fail on codes it does not know: when
    neither the vehicle, the colour nor the upholstery code names a catalog
    entry and no submitted add-on code does, the total is 0.0. *)
Theorem calculate_total_nothing_matches (cfg : Configuration) :
  vehicle_id cfg ∉ v_id <$> VEHICLES →
  color_code cfg ∉ i_code <$> COLORS →
  upholstery_code cfg ∉ i_code <$> UPHOLSTERIES →
  (∀ c, c ∈ factory_options cfg → c ∉ i_code <$> FACTORY_OPTIONS) →
  (∀ c, c ∈ accessories cfg → c ∉ i_code <$> ACCESSORIES) →
  calculate_total cfg = 0%float.
Proof.
  intros Hv Hc Hu Ho Ha. unfold calculate_total.
  rewrite total_int_spec. unfold Spec.total.
  rewrite (base_of_unmatched _ _ Hv), (price_of_unmatched _ _ Hc),
    (price_of_unmatched _ _ Hu), (selected_sum_unmatched _ _ Ho),
    (selected_sum_unmatched _ _ Ha).
  reflexivity.
Qed.

Lemma calculate_total_nothing_matches_witness :
  calculate_total unknown_cfg = 0%float.
Proof.
  apply calculate_total_nothing_matches.
  - by apply (bool_decide_unpack _).
  - by apply (bool_decide_unpack _).
  - by apply (bool_decide_unpack _).
  - intros c Hc. simpl in Hc.
    apply elem_of_cons in Hc as [->|Hc]; [by apply (bool_decide_unpack _)|].
    apply list_elem_of_singleton in Hc as ->. by apply (bool_decide_unpack _).
  - intros c Hc. simpl in Hc.
    apply list_elem_of_singleton in Hc as ->. by apply (bool_decide_unpack _).
Defined.

(** X4. Selecting more add-ons never lowers the price: between two
    configurations with the same vehicle, colour and upholstery codes, the
    one whose add-on lists contain the other's has a total at least as
    high. *)
Theorem more_addons_never_cheaper (cfg1 cfg2 : Configuration) :
  vehicle_id cfg1 = vehicle_id cfg2 →
  color_code cfg1 = color_code cfg2 →
  upholstery_code cfg1 = upholstery_code cfg2 →
  factory_options cfg1 ⊆ factory_options cfg2 →
  accessories cfg1 ⊆ accessories cfg2 →
  ∃ n1 n2,
    exact_int (calculate_total cfg1) = Some n1
    ∧ exact_int (calculate_total cfg2) = Some n2
    ∧ (n1 ≤ n2)%Z.
Proof.
  intros Hv Hc Hu Ho Ha. exists (total_int cfg1), (total_int cfg2).
  split; [apply exact_int_float_total|]. split; [apply exact_int_float_total|].
  rewrite !total_int_spec. unfold Spec.total. rewrite Hv, Hc, Hu.
  destruct catalog_prices_nonneg as [Hpo Hpa].
  pose proof (selected_sum_mono FACTORY_OPTIONS _ _ Hpo Ho).
  pose proof (selected_sum_mono ACCESSORIES _ _ Hpa Ha).
  lia.
Qed.

Lemma more_addons_never_cheaper_witness :
  ∃ n1 n2,
    exact_int (calculate_total small_cfg) = Some n1
    ∧ exact_int (calculate_total large_cfg) = Some n2
    ∧ (n1 ≤ n2)%Z.
Proof.
  apply more_addons_never_cheaper; try reflexivity.
  - intros c Hc. simpl in Hc |- *. apply list_elem_of_singleton in Hc as ->.
    apply list_elem_of_further, list_elem_of_here.
  - intros c Hc. simpl in Hc. by apply not_elem_of_nil in Hc.
Defined.

(** X5. One more add-on code in a list raises the total by the price of
    the catalog entry it names, once: by nothing when the code is already in
    the list or names no entry. *)
Theorem adding_addon_adds_its_price (k : addon) (cfg : Configuration)
    (x : string) :
  exact_int
    (calculate_total (set_addon_codes k (x :: addon_codes k cfg) cfg))
  = Some (total_int cfg
          + (if decide (x ∈ addon_codes k cfg) then 0
             else Spec.price_of (addon_catalog k) x)).
Proof.
  unfold calculate_total. rewrite exact_int_float_total. f_equal.
  rewrite !total_int_spec. unfold Spec.total.
  destruct catalog_codes_NoDup as (_ & _ & _ & Ho & Ha).
  destruct k;
    unfold set_addon_codes, addon_codes, addon_catalog, set_factory_options,
      set_accessories;
    cbn [vehicle_id color_code upholstery_code factory_options accessories].
  - rewrite (selected_sum_cons FACTORY_OPTIONS Ho). lia.
  - rewrite (selected_sum_cons ACCESSORIES Ha). lia.
Qed.

(** X6. Read from the submission's side, the total is the base price plus
    the colour and upholstery prices plus, for every distinct submitted
    add-on code, the price of the catalog entry it names (0 when it names
    none): no catalog entry is charged twice. *)
Theorem calculate_total_per_submitted_code (cfg : Configuration) :
  calculate_total cfg
  = float (Spec.base_of VEHICLES (vehicle_id cfg)
           + Spec.price_of COLORS (color_code cfg)
           + Spec.price_of UPHOLSTERIES (upholstery_code cfg)
           + Spec.submitted_sum FACTORY_OPTIONS (factory_options cfg)
           + Spec.submitted_sum ACCESSORIES (accessories cfg)).
Proof. unfold calculate_total. by rewrite total_int_per_code. Qed.

(** X7. What the catalog endpoints serve is what the pipeline prices: for
    a vehicle, a colour and an upholstery taken from the served lists and
    distinct factory options and accessories taken from theirs, the
    configuration carrying their codes is a valid selection, it is given the
    served names, and its total is the sum of the served prices. *)
Theorem served_selection_total (v : vehicle) (c u : item)
    (options extras : list item) (vn cn un : string) (sa : option string)
    (cust : Customer) (tp : option pyfloat) :
  v ∈ get_vehicles → c ∈ get_colors → u ∈ get_upholsteries →
  NoDup options → options ⊆ get_factory_options →
  NoDup extras → extras ⊆ get_accessories →
  let cfg := mkConfiguration (v_id v) vn (i_code c) cn (i_code u) un
               (i_code <$> options) (i_code <$> extras) sa cust tp in
  Spec.valid_selection cfg
  ∧ Spec.with_names cfg
    = Some (mkConfiguration (v_id v) (v_name v) (i_code c) (i_name c)
              (i_code u) (i_name u) (i_code <$> options) (i_code <$> extras)
              sa cust tp)
  ∧ calculate_total cfg
    = float (v_base_price v + i_price c + i_price u
             + sum (i_price <$> options) + sum (i_price <$> extras)).
Proof.
  intros Hv Hc Hu Hon Hos Han Has cfg.
  unfold get_vehicles, get_colors, get_upholsteries, get_factory_options,
    get_accessories in *.
  destruct catalog_codes_NoDup as (_ & Hnc & Hnu & Hno & Hna).
  pose proof (lookup_vehicle_member v Hv) as Hlv.
  pose proof (lookup_item_member COLORS Hnc c Hc) as Hlc.
  pose proof (lookup_item_member UPHOLSTERIES Hnu u Hu) as Hlu.
  assert (Spec.with_names cfg
          = Some (mkConfiguration (v_id v) (v_name v) (i_code c) (i_name c)
                    (i_code u) (i_name u) (i_code <$> options)
                    (i_code <$> extras) sa cust tp)) as Hnames.
  { unfold Spec.with_names, cfg. cbn [vehicle_id color_code upholstery_code].
    by rewrite Hlv, Hlc, Hlu. }
  split; [|split; [exact Hnames|]].
  - destruct (decide (Spec.valid_selection cfg)) as [|Hinvalid]; [done|].
    apply with_names_None in Hinvalid. congruence.
  - unfold calculate_total. f_equal.
    rewrite total_int_spec. unfold Spec.total, cfg.
    cbn [vehicle_id color_code upholstery_code factory_options accessories].
    rewrite (base_of_lookup_vehicle _ _ _ Hlv).
    rewrite (price_of_member COLORS Hnc c Hc).
    rewrite (price_of_member UPHOLSTERIES Hnu u Hu).
    rewrite (selected_sum_entries FACTORY_OPTIONS Hno options Hon Hos).
    by rewrite (selected_sum_entries ACCESSORIES Hna extras Han Has).
Qed.

Lemma served_selection_total_witness :
  calculate_total
    (mkConfiguration "van-m" "" "RED" "" "LEA-B" ""
       ["NAV-PRO"; "PKG-COMF"] ["MAT-RUB"] None sample_customer None)
  = 27949%float.
Proof.
  refine (proj2 (proj2 (served_selection_total picked_vehicle picked_color
                          picked_upholstery picked_options picked_extras
                          "" "" "" None sample_customer None _ _ _ _ _ _ _)));
    by apply (bool_decide_unpack _).
Defined.

(** ** More on offer submission *)

Section MoreOnSubmission.

Context {DB : Type}.
Variable gw : string → pyval → DB → (exn + string) * DB.


(** X9. One run of the handler either leaves the world untouched or makes
    exactly two calls, in this order: one to the pricing function and then
    one write, into the collection "configuration"; the storage changes
    only through that one write, which is never repeated. *)
Theorem create_offer_effects (payload : OfferRequest) (w : world DB) :
  snd (create_offer gw payload w) = w
  ∨ ∃ cfg' data,
      trace (snd (create_offer gw payload w))
        = trace w ++ [EvCalculateTotal cfg';
                      EvCreateDocument "configuration" data]
      ∧ store (snd (create_offer gw payload w))
        = snd (gw "configuration" data (store w)).
Proof.
  rewrite create_offer_run.
  destruct (Spec.with_names (configuration payload)) as [cfg'|]; [|by left].
  right.
  exists cfg', (model_dump (set_total_price (Some (calculate_total cfg')) cfg')).
  simpl. destruct (gw _ _ _) as [[e|offer_id] db']; simpl; split; reflexivity.
Qed.

End MoreOnSubmission.

(** The resolved configuration resolves to itself. *)
Lemma resolve_idempotent (cfg cfg' : Configuration) :
  Spec.resolve cfg = Some cfg' →
  Spec.with_names cfg' = Some cfg'
  ∧ total_price cfg' = Some (calculate_total cfg').
Proof.
  unfold Spec.resolve. intros H.
  destruct (Spec.with_names cfg) as [cfg1|] eqn:Hnames; [|done].
  simpl in H. injection H as <-.
  unfold Spec.with_names in Hnames |- *.
  destruct (Spec.lookup_vehicle VEHICLES (vehicle_id cfg)) as [v|] eqn:Hv;
    [|done].
  destruct (Spec.lookup_item COLORS (color_code cfg)) as [c|] eqn:Hc; [|done].
  destruct (Spec.lookup_item UPHOLSTERIES (upholstery_code cfg)) as [u|] eqn:Hu;
    [|done].
  simpl in Hnames. injection Hnames as <-.
  cbn [vehicle_id color_code upholstery_code set_total_price
         set_upholstery_name set_color_name set_vehicle_name].
  rewrite Hv, Hc, Hu. done.
Qed.

(** ** More on request validation *)

Section MoreOnValidation.

Variable validate_email : string → option string.
Variable coerce_float : pyval → option pyfloat.

Lemma validate_optional_str_dump (o : option string) :
  validate_optional validate_str (dump_optional_str o) = Some o.
Proof. by destruct o. Qed.

Lemma validate_list_str_dump (l : list string) :
  validate_list validate_str (PList (PStr <$> l)) = Some l.
Proof. simpl. by apply mapM_fmap_Some. Qed.

Lemma validate_Customer_dump (c : Customer) :
  validate_email (email c) = Some (email c) →
  validate_Customer validate_email (dump_customer c) = Some c.
Proof.
  intros Hemail. destruct c as [fn ln co em ph st pc ci no]. simpl in Hemail.
  unfold dump_customer, validate_Customer, required, with_default.
  cbn [first_name last_name company email phone street postal_code city notes].
  set (d := list_to_map _).
  assert (d !! "first_name" = Some (PStr fn)) as -> by reflexivity.
  assert (d !! "last_name" = Some (PStr ln)) as -> by reflexivity.
  assert (d !! "company" = Some (dump_optional_str co)) as -> by reflexivity.
  assert (d !! "email" = Some (PStr em)) as -> by reflexivity.
  assert (d !! "phone" = Some (dump_optional_str ph)) as -> by reflexivity.
  assert (d !! "street" = Some (dump_optional_str st)) as -> by reflexivity.
  assert (d !! "postal_code" = Some (dump_optional_str pc)) as ->
    by reflexivity.
  assert (d !! "city" = Some (dump_optional_str ci)) as -> by reflexivity.
  assert (d !! "notes" = Some (dump_optional_str no)) as -> by reflexivity.
  rewrite !validate_optional_str_dump.
  cbn [mbind option_bind validate_str validate_EmailStr]. rewrite Hemail.
  reflexivity.
Qed.

Lemma validate_optional_float_dump (o : option pyfloat) :
  (∀ f, coerce_float (PFloat f) = Some f) →
  (∀ f, o = Some f → (0 <=? f)%float = true) →
  validate_optional (validate_float_ge0 coerce_float) (dump_optional_float o)
  = Some o.
Proof.
  intros Hcoerce Hge. destruct o as [f|]; [|done]. simpl.
  unfold validate_float_ge0. rewrite Hcoerce. simpl. by rewrite (Hge f).
Qed.

Lemma validate_Configuration_dump (cfg : Configuration) :
  validate_email (email (customer cfg)) = Some (email (customer cfg)) →
  (∀ f, coerce_float (PFloat f) = Some f) →
  (∀ f, total_price cfg = Some f → (0 <=? f)%float = true) →
  validate_Configuration validate_email coerce_float (model_dump cfg)
  = Some cfg.
Proof.
  intros Hemail Hcoerce Hge.
  destruct cfg as [vi vn cc cn uc un fo ac sa cu tp].
  cbn [customer total_price] in Hemail, Hge.
  unfold model_dump, model_dump_dict, validate_Configuration, required,
    with_default.
  cbn [vehicle_id vehicle_name color_code color_name upholstery_code
         upholstery_name factory_options accessories special_agreement
         customer total_price].
  set (d := list_to_map _).
  assert (d !! "vehicle_id" = Some (PStr vi)) as -> by reflexivity.
  assert (d !! "vehicle_name" = Some (PStr vn)) as -> by reflexivity.
  assert (d !! "color_code" = Some (PStr cc)) as -> by reflexivity.
  assert (d !! "color_name" = Some (PStr cn)) as -> by reflexivity.
  assert (d !! "upholstery_code" = Some (PStr uc)) as -> by reflexivity.
  assert (d !! "upholstery_name" = Some (PStr un)) as -> by reflexivity.
  assert (d !! "factory_options" = Some (PList (PStr <$> fo))) as ->
    by reflexivity.
  assert (d !! "accessories" = Some (PList (PStr <$> ac))) as ->
    by reflexivity.
  assert (d !! "special_agreement" = Some (dump_optional_str sa)) as ->
    by reflexivity.
  assert (d !! "customer" = Some (dump_customer cu)) as -> by reflexivity.
  assert (d !! "total_price" = Some (dump_optional_float tp)) as ->
    by reflexivity.
  rewrite !validate_list_str_dump, validate_optional_str_dump,
    (validate_optional_float_dump tp Hcoerce Hge).
  cbn [mbind option_bind validate_str].
  rewrite (validate_Customer_dump cu Hemail). reflexivity.
Qed.

(** X11. Dumping a configuration and validating the dump gives the
    configuration back, provided the email validator returns the customer's
    email as it stands, the float coercion takes a float as it is, and the
    total, if there is one, is not negative. *)
Theorem dump_then_validate (cfg : Configuration) :
  validate_email (email (customer cfg)) = Some (email (customer cfg)) →
  (∀ f, coerce_float (PFloat f) = Some f) →
  (∀ f, total_price cfg = Some f → (0 <=? f)%float = true) →
  validate_OfferRequest validate_email coerce_float
    (PDict {[ "configuration" := model_dump cfg ]})
  = Some (mkOfferRequest cfg).
Proof.
  intros Hemail Hcoerce Hge. unfold validate_OfferRequest, required.
  rewrite lookup_singleton_eq. cbn [mbind option_bind].
  by rewrite (validate_Configuration_dump cfg Hemail Hcoerce Hge).
Qed.

(** X12. A key left out of the configuration takes the default of its
    field: an accepted body without [factory_options] or [accessories] gives
    the empty list, one without [special_agreement] or [total_price] gives
    [None]. *)
Theorem missing_optional_keys_take_defaults (d : gmap string pyval)
    (cfg : Configuration) :
  validate_Configuration validate_email coerce_float (PDict d) = Some cfg →
  (d !! "factory_options" = None → factory_options cfg = [])
  ∧ (d !! "accessories" = None → accessories cfg = [])
  ∧ (d !! "special_agreement" = None → special_agreement cfg = None)
  ∧ (d !! "total_price" = None → total_price cfg = None).
Proof.
  simpl. intros H.
  apply bind_Some in H as (x1 & _ & H).
  apply bind_Some in H as (x2 & _ & H).
  apply bind_Some in H as (x3 & _ & H).
  apply bind_Some in H as (x4 & _ & H).
  apply bind_Some in H as (x5 & _ & H).
  apply bind_Some in H as (x6 & _ & H).
  apply bind_Some in H as (x7 & H7 & H).
  apply bind_Some in H as (x8 & H8 & H).
  apply bind_Some in H as (x9 & H9 & H).
  apply bind_Some in H as (x10 & _ & H).
  apply bind_Some in H as (x11 & H11 & H).
  injection H as <-. simpl.
  unfold with_default in H7, H8, H9, H11.
  repeat split; intros Hmissing.
  - rewrite Hmissing in H7. congruence.
  - rewrite Hmissing in H8. congruence.
  - rewrite Hmissing in H9. congruence.
  - rewrite Hmissing in H11. congruence.
Qed.

Lemma bind_None_r {A B} (m : option A) (k : A → option B) :
  (∀ x, k x = None) → m ≫= k = None.
Proof. intros Hk. destruct m; [apply Hk | done]. Qed.

Context {DB : Type}.
Variable gw : string → pyval → DB → (exn + string) * DB.

(** X13. A body whose [total_price] is present, not null, and coerces to a
    float that fails the check [ge=0] does not validate, although the
    handler would overwrite that total: no request model is built, the
    handler does not run, so the world is left as it was, and no offer is
    answered. Which status code the refusal carries is not stated. *)
Theorem negative_total_price_rejected (b d : gmap string pyval) (x : pyval)
    (f : pyfloat) (w : world DB) :
  b !! "configuration" = Some (PDict d) →
  d !! "total_price" = Some x →
  x ≠ PNone →
  coerce_float x = Some f →
  (0 <=? f)%float = false →
  validate_OfferRequest validate_email coerce_float (PDict b) = None
  ∧ snd (post_api_offers validate_email coerce_float gw (PDict b) w) = w
  ∧ ∀ resp, fst (post_api_offers validate_email coerce_float gw (PDict b) w)
            ≠ Response200 resp.
Proof.
  intros Hb Hd Hx Hcoerce Hneg.
  assert (validate_OfferRequest validate_email coerce_float (PDict b) = None)
    as Hrejected;
    [|unfold post_api_offers; rewrite Hrejected; by repeat split].
  assert (validate_Configuration validate_email coerce_float (PDict d) = None)
    as Hcfg.
  2: { unfold validate_OfferRequest, required. rewrite Hb.
       cbn [mbind option_bind]. by rewrite Hcfg. }
  unfold validate_Configuration.
  do 10 (apply bind_None_r; intros ?).
  unfold with_default. rewrite Hd.
  assert (validate_optional (validate_float_ge0 coerce_float) x = None) as ->;
    [|done].
  unfold validate_float_ge0.
  destruct x; try done; simpl; rewrite Hcoerce; simpl; by rewrite Hneg.
Qed.

(** X10. Sending a stored offer back reproduces it: when the body is the
    document written for some submission, the handler writes that very
    document again, provided the email validator returns the customer's
    email as it stands and the float coercion takes a float as it is. *)
Theorem resubmitting_stored_offer (cfg cfg' : Configuration) (w : world DB) :
  validate_email (email (customer cfg)) = Some (email (customer cfg)) →
  (∀ f, coerce_float (PFloat f) = Some f) →
  Spec.resolve cfg = Some cfg' →
  documents_written
    (trace (snd (post_api_offers validate_email coerce_float gw
                   (PDict {[ "configuration" := model_dump cfg' ]}) w)))
  = documents_written (trace w) ++ [("configuration", model_dump cfg')].
Proof.
  intros Hemail Hcoerce Hresolve.
  destruct (resolve_idempotent _ _ Hresolve) as [Hnames Htotal].
  assert (customer cfg' = customer cfg) as Hcustomer.
  { unfold Spec.resolve in Hresolve.
    destruct (Spec.with_names cfg) as [cfg1|] eqn:Hcfg1; [|done].
    apply with_names_Some in Hcfg1 as (v & c & u & _ & _ & _ & ->).
    simpl in Hresolve. by injection Hresolve as <-. }
  assert (validate_OfferRequest validate_email coerce_float
            (PDict {[ "configuration" := model_dump cfg' ]})
          = Some (mkOfferRequest cfg')) as Hvalidate.
  { unfold validate_OfferRequest, required.
    rewrite lookup_singleton_eq. cbn [mbind option_bind].
    rewrite validate_Configuration_dump; [done | by rewrite Hcustomer | done |].
    intros f Hf. rewrite Htotal in Hf. injection Hf as <-.
    unfold calculate_total.
    apply (possible_totals_forallb (λ n, (0 <=? float n)%float)).
    vm_compute. reflexivity. }
  unfold post_api_offers. rewrite Hvalidate, create_offer_run.
  cbn [configuration]. rewrite Hnames. cbn zeta.
  assert (set_total_price (Some (calculate_total cfg')) cfg' = cfg') as ->.
  { destruct cfg'. simpl in Htotal. unfold set_total_price. simpl.
    by rewrite Htotal. }
  destruct (gw _ _ _) as [[e|offer_id] db']; simpl;
    unfold documents_written; by rewrite omap_app.
Qed.

End MoreOnValidation.

Lemma dump_then_validate_witness :
  validate_OfferRequest simple_validate_email simple_coerce_float
    (PDict {[ "configuration" := model_dump forged_cfg ]})
  = Some (mkOfferRequest forged_cfg).
Proof.
  apply dump_then_validate.
  - reflexivity.
  - intros f. reflexivity.
  - intros f [= <-]. reflexivity.
Defined.

Lemma missing_optional_keys_take_defaults_witness :
  validate_Configuration simple_validate_email simple_coerce_float
    (PDict minimal_dict) = Some minimal_cfg
  ∧ (minimal_dict !! "factory_options" = None → factory_options minimal_cfg = [])
  ∧ (minimal_dict !! "accessories" = None → accessories minimal_cfg = [])
  ∧ (minimal_dict !! "special_agreement" = None
     → special_agreement minimal_cfg = None)
  ∧ (minimal_dict !! "total_price" = None → total_price minimal_cfg = None).
Proof.
  assert (validate_Configuration simple_validate_email simple_coerce_float
            (PDict minimal_dict) = Some minimal_cfg) as H by reflexivity.
  split; [exact H|].
  exact (missing_optional_keys_take_defaults simple_validate_email
           simple_coerce_float minimal_dict minimal_cfg H).
Defined.

Lemma negative_total_price_rejected_witness :
  validate_OfferRequest simple_validate_email simple_coerce_float
    (PDict {[ "configuration" := PDict negative_total_dict ]}) = None
  ∧ snd (post_api_offers simple_validate_email simple_coerce_float
           memory_create_document
           (PDict {[ "configuration" := PDict negative_total_dict ]})
           empty_world)
    = empty_world
  ∧ ∀ resp,
      fst (post_api_offers simple_validate_email simple_coerce_float
             memory_create_document
             (PDict {[ "configuration" := PDict negative_total_dict ]})
             empty_world)
      ≠ Response200 resp.
Proof.
  apply (negative_total_price_rejected simple_validate_email
           simple_coerce_float memory_create_document _ negative_total_dict
           (PFloat (-1)%float) (-1)%float).
  - reflexivity.
  - reflexivity.
  - discriminate.
  - reflexivity.
  - reflexivity.
Defined.

Lemma resubmitting_stored_offer_witness :
  Spec.resolve sample_cfg = Some resolved_sample_cfg
  ∧ documents_written
      (trace (snd (post_api_offers simple_validate_email simple_coerce_float
                     memory_create_document
                     (PDict {[ "configuration" := model_dump resolved_sample_cfg ]})
                     empty_world)))
    = [("configuration", model_dump resolved_sample_cfg)].
Proof.
  assert (Spec.resolve sample_cfg = Some resolved_sample_cfg) as H
    by reflexivity.
  split; [exact H|].
  apply (resubmitting_stored_offer simple_validate_email simple_coerce_float
           memory_create_document sample_cfg resolved_sample_cfg empty_world).
  - reflexivity.
  - intros f. reflexivity.
  - exact H.
Defined.

(** ** The diagnostic endpoint *)

(** The answer of the endpoint in each of the five cases the code
    distinguishes, before the two assignments from the environment. *)
Lemma test_database_cases (db : option database)
    (getenv : string → option string) :
  let finish (response : gmap string pyval) :=
    <["database_name" :=
        PStr (if getenv_truthy (getenv "DATABASE_NAME")
              then "✅ Set" else "❌ Not Set")]>
      (<["database_url" :=
          PStr (if getenv_truthy (getenv "DATABASE_URL")
                then "✅ Set" else "❌ Not Set")]> response) in
  test_database db getenv
  = finish (match test_database_try db initial_response with
            | (Some e, response) =>
                <["database" := PStr ("❌ Error: " +:+ str_prefix 50 (str e))]>
                  response
            | (None, response) => response
            end).
Proof.
  unfold test_database.
  by destruct (test_database_try db initial_response) as [[e|] response].
Qed.

(** X14. The fields [database_url] and [database_name] of the diagnostic
    answer say only whether the environment variables [DATABASE_URL] and
    [DATABASE_NAME] are set to a non-empty value; what the endpoint wrote
    there from the handle, its name included, never reaches the answer. *)
Theorem test_database_env_fields (db : option database)
    (getenv : string → option string) :
  test_database db getenv !! "database_url"
    = Some (PStr (match getenv "DATABASE_URL" with
                  | Some (String _ _) => "✅ Set"
                  | Some EmptyString | None => "❌ Not Set"
                  end))
  ∧ test_database db getenv !! "database_name"
    = Some (PStr (match getenv "DATABASE_NAME" with
                  | Some (String _ _) => "✅ Set"
                  | Some EmptyString | None => "❌ Not Set"
                  end)).
Proof.
  rewrite test_database_cases. cbv zeta. split.
  - rewrite lookup_insert_ne by done. rewrite lookup_insert_eq.
    by destruct (getenv "DATABASE_URL") as [[|]|].
  - rewrite lookup_insert_eq.
    by destruct (getenv "DATABASE_NAME") as [[|]|].
Qed.

(** X15. The diagnostic answer lists at most ten collections: the first
    ten the handle lists, in order, and none when there is no handle or the
    listing raises. *)
Theorem test_database_collections (db : option database)
    (getenv : string → option string) :
  ∃ l,
    test_database db getenv !! "collections" = Some (PList l)
    ∧ (List.length l ≤ 10)%nat
    ∧ (∀ d names, db = Some d → list_collection_names d = inr names →
         l `prefix_of` names)
    ∧ (∀ d names, db = Some d → list_collection_names d = inr names →
         (∀ e, db_name d ≠ AttributeRaises e) → l = take 10 names)
    ∧ (db = None → l = [])
    ∧ (∀ d e, db = Some d → list_collection_names d = inl e → l = []).
Proof.
  rewrite test_database_cases. cbv zeta.
  do 2 (rewrite lookup_insert_ne by done).
  assert (∀ (name : attribute) (listing : exn + list pyval) (l : list pyval),
            (List.length l ≤ 10)%nat →
            (∀ names, listing = inr names → l `prefix_of` names) →
            (∀ names, listing = inr names →
               (∀ e, name ≠ AttributeRaises e) → l = take 10 names) →
            (∀ e, listing = inl e → l = []) →
            (List.length l ≤ 10)%nat
            ∧ (∀ d names, Some (mkDatabase name listing) = Some d →
                 list_collection_names d = inr names → l `prefix_of` names)
            ∧ (∀ d names, Some (mkDatabase name listing) = Some d →
                 list_collection_names d = inr names →
                 (∀ e, db_name d ≠ AttributeRaises e) → l = take 10 names)
            ∧ (Some (mkDatabase name listing) = None → l = [])
            ∧ (∀ d e, Some (mkDatabase name listing) = Some d →
                 list_collection_names d = inl e → l = [])) as Hpack.
  { intros name listing l Hlen Hprefix Htake Hnil.
    split; [done|]. split; [by intros d names [= <-]; apply Hprefix|].
    split; [by intros d names [= <-]; apply Htake|].
    split; [done|]. by intros d e [= <-]; apply Hnil. }
  destruct db as [[name [e|names]]|].
  - exists []. split; [by destruct name|]. apply Hpack; simpl; try done; lia.
  - destruct name as [|v|e'].
    + exists (take 10 names). split; [reflexivity|].
      apply Hpack; simpl.
      * rewrite length_take. lia.
      * intros ? [= <-]. apply prefix_take.
      * by intros ? [= <-].
      * done.
    + exists (take 10 names). split; [reflexivity|].
      apply Hpack; simpl.
      * rewrite length_take. lia.
      * intros ? [= <-]. apply prefix_take.
      * by intros ? [= <-].
      * done.
    + exists []. split; [reflexivity|].
      apply Hpack; simpl.
      * lia.
      * intros. apply prefix_nil.
      * intros ? _ Hname. by destruct (Hname e').
      * done.
  - exists []. split; [reflexivity|]. split; [simpl; lia|].
    repeat split; try done; intros; simplify_eq.
Qed.

(** X16. The diagnostic answer always has the same six keys and reports
    the backend as running; it reports the connection as "Connected"
    exactly when there is a handle whose name can be read without an
    exception, and the database as connected and working exactly when in
    addition the listing of the collections succeeds. *)
Theorem test_database_status (db : option database)
    (getenv : string → option string) :
  dom (test_database db getenv)
    = list_to_set ["backend"; "database"; "database_url"; "database_name";
                   "connection_status"; "collections"]
  ∧ test_database db getenv !! "backend" = Some (PStr "✅ Running")
  ∧ (test_database db getenv !! "connection_status" = Some (PStr "Connected")
     ↔ ∃ d, db = Some d ∧ ∀ e, db_name d ≠ AttributeRaises e)
  ∧ (test_database db getenv !! "database"
       = Some (PStr "✅ Connected & Working")
     ↔ ∃ d names, db = Some d ∧ (∀ e, db_name d ≠ AttributeRaises e)
         ∧ list_collection_names d = inr names).
Proof.
  rewrite test_database_cases. cbv zeta.
  rewrite !dom_insert_L.
  do 6 (rewrite lookup_insert_ne by done).
  destruct db as [[name [e|names]]|]; [destruct name as [|v|e'].. |];
    simpl; (split; [reflexivity|]); (split; [reflexivity|]); split; split.
  all: try (intros [= H]; fail).
  all: try (intros (d & ? & ?); simplify_eq/=; fail).
  all: try (intros (d & ? & ? & ? & ?); simplify_eq/=; fail).
  all: try (intros _; eexists; split; [reflexivity|]; simpl; done).
  all: try (intros _; eexists _, _; split; [reflexivity|]; simpl; done).
  all: try reflexivity.
  all: try (intros (d & ? & Hname); simplify_eq/=; by destruct (Hname e')).
  all: try (intros (d & ? & ? & Hname & ?); simplify_eq/=; by destruct (Hname e')).
Qed.

(** A healthy handle with twelve collections shows the first ten; a URL set
    to the empty string counts as not set; a failing listing shows in the
    [database] field. *)
Example test_database_healthy :
  test_database (Some healthy_db) sample_getenv !! "collections"
    = Some (PList (PStr <$> ["c01"; "c02"; "c03"; "c04"; "c05";
                             "c06"; "c07"; "c08"; "c09"; "c10"]))
  ∧ test_database (Some healthy_db) sample_getenv !! "database_url"
    = Some (PStr "❌ Not Set")
  ∧ test_database (Some healthy_db) sample_getenv !! "database_name"
    = Some (PStr "✅ Set").
Proof. repeat split. Qed.

Example test_database_failing :
  test_database (Some failing_db) sample_getenv !! "database"
    = Some (PStr "⚠️  Connected but Error: server selection timeout")
  ∧ test_database (Some failing_db) sample_getenv !! "connection_status"
    = Some (PStr "Connected").
Proof. repeat split. Qed.

(** ** The stored record and the submitted body *)

Section StoredRecord.

Variable validate_email : string → option string.
Variable coerce_float : pyval → option pyfloat.

Lemma validate_str_inv (x : pyval) (s : string) :
  validate_str x = Some s → x = PStr s.
Proof. destruct x; simpl; try done. by intros [= ->]. Qed.

Lemma required_str_inv (d : gmap string pyval) (k s : string) :
  required validate_str d k = Some s → d !! k = Some (PStr s).
Proof.
  unfold required. destruct (d !! k) as [x|]; [|done]. simpl.
  by intros ->%validate_str_inv.
Qed.

Lemma validate_list_str_inv (x : pyval) (l : list string) :
  validate_list validate_str x = Some l → x = PList (PStr <$> l).
Proof.
  destruct x as [| | | | |xs|]; simpl; try done.
  intros H%mapM_Some. f_equal.
  induction H as [|x s xs l Hx _ IH]; [done|].
  rewrite fmap_cons. f_equal; [by apply validate_str_inv | done].
Qed.

Lemma validate_optional_str_inv (x : pyval) (o : option string) :
  validate_optional validate_str x = Some o → x = dump_optional_str o.
Proof. destruct x; simpl; try done; by intros [= <-]. Qed.

(** A key that is present and accepted by a string-valued field holds the
    dump of the value the model got. *)
Lemma with_default_list_str_inv (d : gmap string pyval) (k : string)
    (l : list string) :
  with_default (validate_list validate_str) [] d k = Some l →
  is_Some (d !! k) → d !! k = Some (PList (PStr <$> l)).
Proof.
  unfold with_default. intros H [x Hx]. rewrite Hx in H |- *.
  by rewrite (validate_list_str_inv _ _ H).
Qed.

Lemma with_default_optional_str_inv (d : gmap string pyval) (k : string)
    (o : option string) :
  with_default (validate_optional validate_str) None d k = Some o →
  is_Some (d !! k) → d !! k = Some (dump_optional_str o).
Proof.
  unfold with_default. intros H [x Hx]. rewrite Hx in H |- *.
  by rewrite (validate_optional_str_inv _ _ H).
Qed.

Lemma required_email_inv (d : gmap string pyval) (k s : string) :
  required (validate_EmailStr validate_email) d k = Some s →
  ∃ submitted, d !! k = Some (PStr submitted)
    ∧ validate_email submitted = Some s.
Proof.
  unfold required, validate_EmailStr.
  destruct (d !! k) as [[]|]; simpl; try done. eauto.
Qed.

Lemma validate_Customer_inv (c : gmap string pyval) (cu : Customer) :
  validate_Customer validate_email (PDict c) = Some cu →
  c !! "first_name" = Some (PStr (first_name cu))
  ∧ c !! "last_name" = Some (PStr (last_name cu))
  ∧ (∃ submitted, c !! "email" = Some (PStr submitted)
       ∧ validate_email submitted = Some (email cu))
  ∧ (is_Some (c !! "company")
     → c !! "company" = Some (dump_optional_str (company cu)))
  ∧ (is_Some (c !! "phone")
     → c !! "phone" = Some (dump_optional_str (phone cu)))
  ∧ (is_Some (c !! "street")
     → c !! "street" = Some (dump_optional_str (street cu)))
  ∧ (is_Some (c !! "postal_code")
     → c !! "postal_code" = Some (dump_optional_str (postal_code cu)))
  ∧ (is_Some (c !! "city")
     → c !! "city" = Some (dump_optional_str (city cu)))
  ∧ (is_Some (c !! "notes")
     → c !! "notes" = Some (dump_optional_str (notes cu))).
Proof.
  simpl. intros H.
  apply bind_Some in H as (fn & Hfn%required_str_inv & H).
  apply bind_Some in H as (ln & Hln%required_str_inv & H).
  apply bind_Some in H as (co & Hco & H).
  apply bind_Some in H as (em & Hem%required_email_inv & H).
  apply bind_Some in H as (ph & Hph & H).
  apply bind_Some in H as (st & Hst & H).
  apply bind_Some in H as (pc & Hpc & H).
  apply bind_Some in H as (ci & Hci & H).
  apply bind_Some in H as (no & Hno & H).
  injection H as <-. simpl.
  repeat split; try done; by apply with_default_optional_str_inv.
Qed.

Lemma validate_Configuration_inv (d : gmap string pyval)
    (cfg : Configuration) :
  validate_Configuration validate_email coerce_float (PDict d) = Some cfg →
  d !! "vehicle_id" = Some (PStr (vehicle_id cfg))
  ∧ d !! "color_code" = Some (PStr (color_code cfg))
  ∧ d !! "upholstery_code" = Some (PStr (upholstery_code cfg))
  ∧ (is_Some (d !! "factory_options")
     → d !! "factory_options" = Some (PList (PStr <$> factory_options cfg)))
  ∧ (is_Some (d !! "accessories")
     → d !! "accessories" = Some (PList (PStr <$> accessories cfg)))
  ∧ (is_Some (d !! "special_agreement")
     → d !! "special_agreement"
       = Some (dump_optional_str (special_agreement cfg)))
  ∧ ∃ c, d !! "customer" = Some (PDict c)
      ∧ validate_Customer validate_email (PDict c) = Some (customer cfg).
Proof.
  simpl. intros H.
  apply bind_Some in H as (x1 & H1%required_str_inv & H).
  apply bind_Some in H as (x2 & _ & H).
  apply bind_Some in H as (x3 & H3%required_str_inv & H).
  apply bind_Some in H as (x4 & _ & H).
  apply bind_Some in H as (x5 & H5%required_str_inv & H).
  apply bind_Some in H as (x6 & _ & H).
  apply bind_Some in H as (x7 & H7 & H).
  apply bind_Some in H as (x8 & H8 & H).
  apply bind_Some in H as (x9 & H9 & H).
  apply bind_Some in H as (x10 & H10 & H).
  apply bind_Some in H as (x11 & _ & H).
  injection H as <-. simpl.
  split; [done|]. split; [done|]. split; [done|].
  split; [by apply with_default_list_str_inv|].
  split; [by apply with_default_list_str_inv|].
  split; [by apply with_default_optional_str_inv|].
  unfold required in H10.
  destruct (d !! "customer") as [[| | | | | |c]|]; try done. eauto.
Qed.

Context {DB : Type}.
Variable gw : string → pyval → DB → (exn + string) * DB.

(** C9 (amended). After a successful submission the trace shows one more
    document, written to the collection "configuration": a record with
    exactly the fields of [Configuration]. In it the three codes, and the
    add-on lists, the special agreement and the customer's fields that the
    body carries, hold what the client submitted, byte for byte, with one
    exception: the customer's email is stored as the email validation of
    the request returned it. *)
Theorem persisted_record_as_validated (b d : gmap string pyval)
    (resp : OfferResponse.t) (w w' : world DB) :
  b !! "configuration" = Some (PDict d) →
  post_api_offers validate_email coerce_float gw (PDict b) w
    = (Response200 resp, w') →
  ∃ (data c cust : gmap string pyval) (submitted stored : string),
    documents_written (trace w')
      = documents_written (trace w) ++ [("configuration", PDict data)]
    ∧ dom data = list_to_set Configuration_fields
    ∧ (∀ k, k ∈ ["vehicle_id"; "color_code"; "upholstery_code"] →
         data !! k = d !! k)
    ∧ (∀ k, k ∈ ["factory_options"; "accessories"; "special_agreement"] →
         is_Some (d !! k) → data !! k = d !! k)
    ∧ d !! "customer" = Some (PDict c)
    ∧ data !! "customer" = Some (PDict cust)
    ∧ (∀ k, k ∈ ["first_name"; "last_name"] → cust !! k = c !! k)
    ∧ (∀ k, k ∈ ["company"; "phone"; "street"; "postal_code"; "city"; "notes"] →
         is_Some (c !! k) → cust !! k = c !! k)
    ∧ c !! "email" = Some (PStr submitted)
    ∧ validate_email submitted = Some stored
    ∧ cust !! "email" = Some (PStr stored).
Proof.
  intros Hb Hpost. unfold post_api_offers in Hpost.
  destruct (validate_OfferRequest validate_email coerce_float (PDict b))
    as [[cfg]|] eqn:Hvalidate; [|done].
  destruct (create_offer gw (mkOfferRequest cfg) w) as [[e|r] w1] eqn:Hrun;
    [by destruct e|].
  injection Hpost as <- <-.
  unfold validate_OfferRequest, required in Hvalidate. rewrite Hb in Hvalidate.
  cbn [mbind option_bind] in Hvalidate.
  apply bind_Some in Hvalidate as (cfg0 & Hcfg & [= ->]).
  apply validate_Configuration_inv in Hcfg
    as (Hvi & Hcc & Huc & Hfo & Hac & Hsa & c & Hc & Hcu).
  apply validate_Customer_inv in Hcu
    as (Hfn & Hln & (submitted & Hsub & Hstored) & Hco & Hph & Hst & Hpc
        & Hci & Hno).
  destruct (persisted_record_of_model gw cfg r w w1 Hrun)
    as (data & Hdocs & Hdom & Hkeep & Hdfo & Hdac & Hdsa & Hdcu).
  assert (∀ k, k ∈ ["vehicle_id"; "color_code"; "upholstery_code"] →
            k ∉ derived_fields) as Hunderived.
  { intros k Hk Hd. unfold derived_fields in Hd.
    repeat (apply elem_of_cons in Hk as [->|Hk];
            [by repeat (apply elem_of_cons in Hd as [?|Hd]; [done|]);
                apply not_elem_of_nil in Hd|]).
    by apply not_elem_of_nil in Hk. }
  exists data, c,
    (list_to_map [
       ("first_name", PStr (first_name (customer cfg)));
       ("last_name", PStr (last_name (customer cfg)));
       ("company", dump_optional_str (company (customer cfg)));
       ("email", PStr (email (customer cfg)));
       ("phone", dump_optional_str (phone (customer cfg)));
       ("street", dump_optional_str (street (customer cfg)));
       ("postal_code", dump_optional_str (postal_code (customer cfg)));
       ("city", dump_optional_str (city (customer cfg)));
       ("notes", dump_optional_str (notes (customer cfg)))]),
    submitted, (email (customer cfg)).
  split; [exact Hdocs|]. split; [exact Hdom|].
  split.
  { intros k Hk. rewrite (Hkeep k (Hunderived k Hk)).
    repeat (apply elem_of_cons in Hk as [->|Hk]; [by symmetry|]).
    by apply not_elem_of_nil in Hk. }
  split.
  { intros k Hk Hsome.
    apply elem_of_cons in Hk as [->|Hk]; [by rewrite Hdfo, Hfo|].
    apply elem_of_cons in Hk as [->|Hk]; [by rewrite Hdac, Hac|].
    apply elem_of_cons in Hk as [->|Hk]; [by rewrite Hdsa, Hsa|].
    by apply not_elem_of_nil in Hk. }
  split; [exact Hc|]. split; [exact Hdcu|].
  split.
  { intros k Hk.
    apply elem_of_cons in Hk as [->|Hk]; [by rewrite Hfn|].
    apply elem_of_cons in Hk as [->|Hk]; [by rewrite Hln|].
    by apply not_elem_of_nil in Hk. }
  split.
  { intros k Hk Hsome.
    apply elem_of_cons in Hk as [->|Hk]; [by rewrite Hco|].
    apply elem_of_cons in Hk as [->|Hk]; [by rewrite Hph|].
    apply elem_of_cons in Hk as [->|Hk]; [by rewrite Hst|].
    apply elem_of_cons in Hk as [->|Hk]; [by rewrite Hpc|].
    apply elem_of_cons in Hk as [->|Hk]; [by rewrite Hci|].
    apply elem_of_cons in Hk as [->|Hk]; [by rewrite Hno|].
    by apply not_elem_of_nil in Hk. }
  split; [exact Hsub|]. split; [exact Hstored|]. reflexivity.
Qed.

End StoredRecord.

Lemma persisted_record_as_validated_witness :
  ∃ (data cust : gmap string pyval) (submitted stored : string),
    documents_written
      (trace (snd (post_api_offers normalising_validate_email
                     simple_coerce_float memory_create_document
                     capitals_body empty_world)))
    = [("configuration", PDict data)]
    ∧ data !! "vehicle_id" = capitals_dict !! "vehicle_id"
    ∧ data !! "factory_options" = capitals_dict !! "factory_options"
    ∧ data !! "customer" = Some (PDict cust)
    ∧ cust !! "first_name" = Some (PStr "Ada")
    ∧ normalising_validate_email submitted = Some stored
    ∧ cust !! "email" = Some (PStr stored).
Proof.
  destruct (persisted_record_as_validated normalising_validate_email
              simple_coerce_float memory_create_document
              {[ "configuration" := PDict capitals_dict ]} capitals_dict
              (OfferResponse.mk "offer-0" 20730%float) empty_world
              (snd (post_api_offers normalising_validate_email
                      simple_coerce_float memory_create_document
                      capitals_body empty_world)))
    as (data & c & cust & submitted & stored & Hdocs & _ & Hcodes & Hlists
        & Hc & Hcust & Hnames & _ & _ & Hstored & Hemail).
  { reflexivity. }
  { vm_compute. reflexivity. }
  exists data, cust, submitted, stored.
  split; [exact Hdocs|].
  split; [apply Hcodes, list_elem_of_here|].
  split; [apply Hlists; [apply list_elem_of_here | by eexists]|].
  split; [exact Hcust|].
  split; [|by split].
  rewrite (Hnames "first_name") by apply list_elem_of_here.
  assert (capitals_dict !! "customer" = Some (dump_customer capitals_customer))
    as Hsubmitted by reflexivity.
  rewrite Hsubmitted in Hc. injection Hc as <-. reflexivity.
Defined.

(** The claim as worded fails on the email: the body carries the email
    "Ada@EXAMPLE.ORG", the submission succeeds, and the customer of the
    stored record carries "Ada@example.org", so the stored customer is not
    the submitted one. *)
Lemma stored_email_differs_from_submitted :
  fst (post_api_offers normalising_validate_email simple_coerce_float
         memory_create_document capitals_body empty_world)
    = Response200 (OfferResponse.mk "offer-0" 20730%float)
  ∧ documents_written
      (trace (snd (post_api_offers normalising_validate_email
                     simple_coerce_float memory_create_document
                     capitals_body empty_world)))
    = [("configuration", model_dump stored_capitals_cfg)]
  ∧ capitals_dict !! "customer" = Some (dump_customer capitals_customer)
  ∧ model_dump_dict stored_capitals_cfg !! "customer"
    = Some (dump_customer (customer stored_capitals_cfg))
  ∧ email capitals_customer = "Ada@EXAMPLE.ORG"
  ∧ email (customer stored_capitals_cfg) = "Ada@example.org"
  ∧ model_dump_dict stored_capitals_cfg !! "customer"
    ≠ capitals_dict !! "customer".
Proof.
  split; [vm_compute; reflexivity|].
  split; [vm_compute; reflexivity|].
  split; [reflexivity|]. split; [reflexivity|].
  split; [reflexivity|]. split; [reflexivity|].
  assert (capitals_dict !! "customer" = Some (dump_customer capitals_customer))
    as -> by reflexivity.
  assert (model_dump_dict stored_capitals_cfg !! "customer"
          = Some (dump_customer (customer stored_capitals_cfg))) as ->
    by reflexivity.
  intros H.
  apply (f_equal (λ o : option pyval,
                    match o with
                    | Some (PDict m) => m !! "email"
                    | _ => None
                    end)) in H.
  vm_compute in H. discriminate H.
Qed.

(** The cut of [str_prefix] falls between characters, not inside one: two
    characters of a text whose characters take two bytes each are four
    bytes. *)
Example str_prefix_whole_characters :
  str_prefix 2 "ééé" = "éé" ∧ String.length (str_prefix 2 "ééé") = 4%nat
  ∧ str_prefix 50 "short" = "short".
Proof. repeat split. Qed.
